(** * NewsPortal: subscriptions, daily news quota, notifications, activation

    A shallow embedding of the request handlers of [news/views.py] and of the
    admin action of [news/admin.py].  Tables of the ORM are lists of rows
    (order and duplicates are visible to [get] and [count]); a handler is a
    function from the store, the clock and the request to an [Outcome]
    (response, flashed messages, new store, e-mails handed to the
    transport).  [logger.info] calls of the views do not influence any
    response or row and are left out; the admin action keeps its log since
    its error branch is observable only there and in the flashed messages. *)

From Stdlib Require Import ZArith List String Bool Arith Lia.
Import ListNotations.
Open Scope string_scope.
Open Scope Z_scope.

(** ** Rows of the models used by the handlers *)

Module User.
Record t := mk
  { id : nat;
    username : string;
    email : string;
    is_active : bool;
    is_staff : bool;
    is_superuser : bool;
    groups : list string;
    permissions : list string }.

Definition set_is_active (b : bool) (u : t) : t :=
  mk (id u) (username u) (email u) b (is_staff u) (is_superuser u)
     (groups u) (permissions u).
End User.

(** [request.user]: a stored user or Django's [AnonymousUser]. *)
Inductive RequestUser :=
| AnonymousUser
| Authenticated (u : User.t).

Definition is_authenticated (ru : RequestUser) : bool :=
  match ru with AnonymousUser => false | Authenticated _ => true end.

Definition is_staff (ru : RequestUser) : bool :=
  match ru with AnonymousUser => false | Authenticated u => User.is_staff u end.

(** [request.user.groups.filter(name=g).exists()] *)
Definition in_group (g : string) (ru : RequestUser) : bool :=
  match ru with
  | AnonymousUser => false
  | Authenticated u => existsb (String.eqb g) (User.groups u)
  end.

(** [request.user.has_perm(p)] as the model backend resolves it. *)
Definition has_perm (p : string) (ru : RequestUser) : bool :=
  match ru with
  | AnonymousUser => false
  | Authenticated u =>
      User.is_active u &&
      (User.is_superuser u || existsb (String.eqb p) (User.permissions u))
  end.

(** Model instances compare by primary key. *)
Definition same_user (uid : nat) (ru : RequestUser) : bool :=
  match ru with
  | AnonymousUser => false
  | Authenticated u => Nat.eqb uid (User.id u)
  end.

Module Author.
Record t := mk { id : nat; user : nat; rating : Z }.
End Author.

Module Category.
Record t := mk { id : nat; name : string }.
End Category.

Inductive PostType := NEWS | ARTICLE.

Definition PostType_eqb (a b : PostType) : bool :=
  match a, b with
  | NEWS, NEWS | ARTICLE, ARTICLE => true
  | _, _ => false
  end.

Module Post.
Record t := mk
  { id : nat;
    title : string;
    content : string;
    post_type : PostType;
    author : Author.t;
    created_at : Z;
    categories : list nat }.
End Post.

Module Subscription.
Record t := mk { id : nat; user : nat; category : nat; subscribed_at : Z }.
End Subscription.

Module ActivationToken.
Record t := mk
  { id : nat; user : nat; token : string; created_at : Z; activated : bool }.

Definition set_activated (b : bool) (a : t) : t :=
  mk (id a) (user a) (token a) (created_at a) b.
End ActivationToken.

(** ** The persisted store *)

Module DB.
Record t := mk
  { users : list User.t;
    authors : list Author.t;
    categories : list Category.t;
    posts : list Post.t;
    subscriptions : list Subscription.t;
    tokens : list ActivationToken.t }.

Definition with_subscriptions (s : list Subscription.t) (d : t) : t :=
  mk (users d) (authors d) (categories d) (posts d) s (tokens d).

Definition with_posts (p : list Post.t) (d : t) : t :=
  mk (users d) (authors d) (categories d) p (subscriptions d) (tokens d).

Definition with_authors (a : list Author.t) (d : t) : t :=
  mk (users d) a (categories d) (posts d) (subscriptions d) (tokens d).

Definition with_tokens (k : list ActivationToken.t) (d : t) : t :=
  mk (users d) (authors d) (categories d) (posts d) (subscriptions d) k.

Definition with_users (u : list User.t) (d : t) : t :=
  mk u (authors d) (categories d) (posts d) (subscriptions d) (tokens d).
End DB.

(** ** Query-set operations of the ORM *)

Module Orm.

Inductive Exn := DoesNotExist | MultipleObjectsReturned | DatabaseError.

Inductive result (A : Type) :=
| Ok (a : A)
| Raise (e : Exn).
Arguments Ok {A} a.
Arguments Raise {A} e.

(** [Model.objects.get] on a filter: the single matching row, or an exception
    when there is none or more than one. *)
Definition get {A : Type} (p : A -> bool) (rows : list A) : result A :=
  match filter p rows with
  | [] => Raise DoesNotExist
  | [a] => Ok a
  | _ :: _ :: _ => Raise MultipleObjectsReturned
  end.

(** [queryset.count()] *)
Definition count {A : Type} (p : A -> bool) (rows : list A) : nat :=
  List.length (filter p rows).

(** [queryset.exists()] *)
Definition exists_ {A : Type} (p : A -> bool) (rows : list A) : bool :=
  existsb p rows.

(** [queryset.delete()]: the number of rows removed and the remaining table. *)
Definition delete {A : Type} (p : A -> bool) (rows : list A) : nat * list A :=
  (List.length (filter p rows), filter (fun r => negb (p r)) rows).

(** The key an auto-increment column gives the next inserted row. *)
Definition next_id {A : Type} (key : A -> nat) (rows : list A) : nat :=
  S (fold_right Nat.max 0%nat (map key rows)).

End Orm.

(** ** Responses and flashed messages *)

Inductive Level := DEBUG | INFO | SUCCESS | WARNING | ERROR.

(** The three [permission_denied_message] texts of the access mixins. *)
Inductive DeniedText :=
| InsufficientRights
| OnlyAuthors
| OnlyOwnContent.

(** A message handed to the messages framework or to [message_user]; the
    constructor stands for the fixed text, its arguments for the
    interpolated values. *)
Inductive Flash :=
| Subscribed (category_name : string)
| AlreadySubscribed (category_name : string)
| Unsubscribed (category_name : string)
| WasNotSubscribed (category_name : string)
| AuthorsOnly
| Denied (text : DeniedText)
| NewsCreated
| NotNews (post_title : string)
| NoCategories (post_title : string)
| ErrorFor (post_title : string) (exception : string)
| NotificationsSent (success_count : nat).

Definition level (m : Flash) : Level :=
  match m with
  | Subscribed _ => SUCCESS
  | AlreadySubscribed _ => INFO
  | Unsubscribed _ => SUCCESS
  | WasNotSubscribed _ => WARNING
  | AuthorsOnly => ERROR
  | Denied _ => ERROR
  | NewsCreated => SUCCESS
  | NotNews _ => WARNING
  | NoCategories _ => WARNING
  | ErrorFor _ _ => ERROR
  | NotificationsSent _ => INFO
  end.

(** The rejections of section 7 of the specification that have no handler
    of their own in [views.py]. *)
Inductive Condition := QuotaExceeded.

Inductive HttpResponse :=
| Redirect (url_name : string) (arg : option nat)
| RedirectToLogin
| Http404
| ServerError (e : Orm.Exn)
| Rejected (c : Condition)
| Render (template : string) (context : list (string * Z)).

(** An e-mail handed to the transport: the addressee (a user), the post
    title as subject and the post the link points to. *)
Record Email := mkEmail { recipient : nat; subject : string; link : nat }.

Record Outcome := mkOutcome
  { response : HttpResponse;
    flashes : list Flash;
    store : DB.t;
    outbox : list Email }.

(** ** Clock: POSIX seconds; [TIME_ZONE = 'Europe/Moscow'], [USE_TZ = True] *)

Definition DAY : Z := 86400.
Definition MOSCOW_UTC_OFFSET : Z := 10800.

(** [timezone.now().date()]: the calendar day of the aware UTC datetime. *)
Definition date_of_now (now : Z) : Z := now / DAY.

(** [timezone.make_aware(datetime.combine(today, time.min))]: midnight of
    that day on the wall clock of the current time zone. *)
Definition today_start (now : Z) : Z := date_of_now now * DAY - MOSCOW_UTC_OFFSET.

(** ** Methods of [news/models.py] and [news/mixins.py] the handlers call

    Neither file is part of the sources at hand; each definition of this
    module follows the specification and says so. *)

Module Models.

(** Modelled from the spec: [Author.get_news_count_today] of
    [news/models.py], section 4.2 ([count_news_today]): the NEWS posts owned
    by the author whose creation timestamp is at or after today's midnight. *)
Definition get_news_count_today (db : DB.t) (now : Z) (a : Author.t) : Z :=
  Z.of_nat
    (Orm.count
       (fun p => PostType_eqb (Post.post_type p) NEWS
                 && Nat.eqb (Author.id (Post.author p)) (Author.id a)
                 && (today_start now <=? Post.created_at p))
       (DB.posts db)).

(** Modelled from the spec: [remaining] of section 4.2. *)
Definition remaining (db : DB.t) (now : Z) (a : Author.t) : Z :=
  Z.max 0 (3 - get_news_count_today db now a).

(** Modelled from the spec: [ActivationToken.is_expired] of
    [news/models.py], section 4.5: a pure function of
    [now - created_at > 1 day]. *)
Definition is_expired (now : Z) (a : ActivationToken.t) : bool :=
  DAY <? now - ActivationToken.created_at a.

(** Users holding a subscription to one of the categories, each once. *)
Definition subscribers_of (db : DB.t) (cats : list nat) : list nat :=
  nodup Nat.eq_dec
    (map Subscription.user
       (filter (fun s => existsb (Nat.eqb (Subscription.category s)) cats)
               (DB.subscriptions db))).

Definition notification (p : Post.t) (uid : nat) : Email :=
  mkEmail uid (Post.title p) (Post.id p).

(** Modelled from the spec: [Post.send_notifications_to_subscribers] of
    [news/models.py], section 4.3: nothing for a post that is not NEWS or
    has no category; otherwise one e-mail (title and link) per distinct
    user subscribed to any category of the post. *)
Definition send_notifications_to_subscribers (db : DB.t) (p : Post.t) : list Email :=
  match Post.post_type p, Post.categories p with
  | ARTICLE, _ => []
  | NEWS, [] => []
  | NEWS, cats => map (notification p) (subscribers_of db cats)
  end.

(** Modelled from the spec: [AuthRequiredMixin] of [news/mixins.py],
    section 1: the handlers behind it serve authenticated users. *)
Definition AuthRequiredMixin_allows (ru : RequestUser) : bool :=
  is_authenticated ru.

(** Modelled from the spec: [NewsLimitMixin] of [news/mixins.py], the
    enforcement point of section 4.2: the news-creation pathway consults
    [remaining] before persisting and lets the request through only when
    it is not 0.  A user without an author profile has published nothing. *)
Definition NewsLimitMixin_allows (db : DB.t) (now : Z) (ru : RequestUser) : bool :=
  match ru with
  | AnonymousUser => true
  | Authenticated u =>
      match Orm.get (fun a => Nat.eqb (Author.user a) (User.id u)) (DB.authors db) with
      | Orm.Ok a => negb (remaining db now a =? 0)
      | Orm.Raise _ => true
      end
  end.

End Models.

(** ** [news/views.py] *)

Module Views.

Definition category_with_id (category_id : nat) (c : Category.t) : bool :=
  Nat.eqb (Category.id c) category_id.

(** The filter [user=request.user, category=category] on subscriptions. *)
Definition subscription_of (uid cid : nat) (s : Subscription.t) : bool :=
  Nat.eqb (Subscription.user s) uid && Nat.eqb (Subscription.category s) cid.

(** [Subscription.objects.get_or_create(user=..., category=...)]: the row
    found by [get] with [False], or a freshly inserted row with [True];
    [MultipleObjectsReturned] of the lookup is not handled. *)
Definition Subscription_get_or_create (db : DB.t) (now : Z) (uid cid : nat)
  : Orm.result (Subscription.t * bool * DB.t) :=
  match Orm.get (subscription_of uid cid) (DB.subscriptions db) with
  | Orm.Ok s => Orm.Ok (s, false, db)
  | Orm.Raise Orm.DoesNotExist =>
      let s := Subscription.mk (Orm.next_id Subscription.id (DB.subscriptions db))
                               uid cid now in
      Orm.Ok (s, true, DB.with_subscriptions (DB.subscriptions db ++ [s]) db)
  | Orm.Raise e => Orm.Raise e
  end.

(** Rows of the subscription table held for the pair. *)
Definition rows_for (uid cid : nat) (db : DB.t) : nat :=
  Orm.count (subscription_of uid cid) (DB.subscriptions db).

(** The invariant of the data model: at most one row per (user, category). *)
Definition at_most_one_row_per_pair (db : DB.t) : Prop :=
  forall uid cid, (rows_for uid cid db <= 1)%nat.

(** [subscribe_to_category(request, category_id)] behind [login_required]. *)
Definition subscribe_to_category (db : DB.t) (now : Z) (ru : RequestUser)
  (category_id : nat) : Outcome :=
  match ru with
  | AnonymousUser => mkOutcome RedirectToLogin [] db []
  | Authenticated u =>
      match Orm.get (category_with_id category_id) (DB.categories db) with
      | Orm.Raise Orm.DoesNotExist => mkOutcome Http404 [] db []
      | Orm.Raise e => mkOutcome (ServerError e) [] db []
      | Orm.Ok category =>
          match Subscription_get_or_create db now (User.id u) (Category.id category) with
          | Orm.Raise e => mkOutcome (ServerError e) [] db []
          | Orm.Ok (_, created, db') =>
              mkOutcome (Redirect "category_posts" (Some category_id))
                [if created then Subscribed (Category.name category)
                 else AlreadySubscribed (Category.name category)]
                db' []
          end
      end
  end.

(** [Subscription.objects.filter(user=..., category=...).delete()[0]] with
    the table it leaves. *)
Definition Subscription_delete (db : DB.t) (uid cid : nat) : nat * DB.t :=
  let (deleted_count, rest) := Orm.delete (subscription_of uid cid) (DB.subscriptions db) in
  (deleted_count, DB.with_subscriptions rest db).

(** [unsubscribe_from_category(request, category_id)] behind
    [login_required]. *)
Definition unsubscribe_from_category (db : DB.t) (ru : RequestUser)
  (category_id : nat) : Outcome :=
  match ru with
  | AnonymousUser => mkOutcome RedirectToLogin [] db []
  | Authenticated u =>
      match Orm.get (category_with_id category_id) (DB.categories db) with
      | Orm.Raise Orm.DoesNotExist => mkOutcome Http404 [] db []
      | Orm.Raise e => mkOutcome (ServerError e) [] db []
      | Orm.Ok category =>
          let (deleted_count, db') :=
            Subscription_delete db (User.id u) (Category.id category) in
          mkOutcome (Redirect "category_posts" (Some category_id))
            [if (0 <? deleted_count)%nat then Unsubscribed (Category.name category)
             else WasNotSubscribed (Category.name category)]
            db' []
      end
  end.

(** The author profile of the requesting user:
    [get_object_or_404(Author, user=request.user)] and
    [request.user.author]. *)
Definition author_of (db : DB.t) (u : User.t) : Orm.result Author.t :=
  Orm.get (fun a => Nat.eqb (Author.user a) (User.id u)) (DB.authors db).

(** [Post.objects.filter(author=author, created_at__gte=today_start).count()]
    of [author_dashboard]. *)
Definition posts_today (db : DB.t) (now : Z) (a : Author.t) : Z :=
  Z.of_nat
    (Orm.count
       (fun p => Nat.eqb (Author.id (Post.author p)) (Author.id a)
                 && (today_start now <=? Post.created_at p))
       (DB.posts db)).

Definition total_posts (db : DB.t) (a : Author.t) : Z :=
  Z.of_nat
    (Orm.count (fun p => Nat.eqb (Author.id (Post.author p)) (Author.id a))
               (DB.posts db)).

(** [author_dashboard(request)] behind [login_required]; the context keeps
    its integer entries. *)
Definition author_dashboard (db : DB.t) (now : Z) (ru : RequestUser) : Outcome :=
  match ru with
  | AnonymousUser => mkOutcome RedirectToLogin [] db []
  | Authenticated u =>
      if negb (in_group "authors" ru) then
        mkOutcome (Redirect "news_list" None) [AuthorsOnly] db []
      else
        match author_of db u with
        | Orm.Raise Orm.DoesNotExist => mkOutcome Http404 [] db []
        | Orm.Raise e => mkOutcome (ServerError e) [] db []
        | Orm.Ok author =>
            mkOutcome
              (Render "news/author_dashboard.html"
                 [("posts_today", posts_today db now author);
                  ("total_posts", total_posts db author);
                  ("news_limit_remaining", Z.max 0 (3 - posts_today db now author))])
              [] db []
        end
  end.

(** The entries [NewsCreate.get_context_data] adds about the limit, present
    only when the user has an author profile. *)
Definition NewsCreate_get_context_data (db : DB.t) (now : Z) (ru : RequestUser)
  : list (string * Z) :=
  match ru with
  | AnonymousUser => []
  | Authenticated u =>
      match author_of db u with
      | Orm.Ok author =>
          let news_count := Models.get_news_count_today db now author in
          [("news_count_today", news_count);
           ("news_remaining", Z.max 0 (3 - news_count))]
      | Orm.Raise _ => []
      end
  end.

(** Lookup of a context entry by its key. *)
Fixpoint context_get (k : string) (ctx : list (string * Z)) : option Z :=
  match ctx with
  | [] => None
  | (k', v) :: rest => if String.eqb k k' then Some v else context_get k rest
  end.

Definition rendered_context (o : Outcome) : list (string * Z) :=
  match response o with
  | Render _ ctx => ctx
  | _ => []
  end.

(** *** Access mixins *)

(** [handle_no_permission] of all three mixins: an error message and a
    redirect to the news list. *)
Definition handle_no_permission (text : DeniedText) (db : DB.t) : Outcome :=
  mkOutcome (Redirect "news_list" None) [Denied text] db [].

Definition AuthorRequiredMixin_test_func (ru : RequestUser) : bool :=
  is_authenticated ru && in_group "authors" ru.

Definition OwnerRequiredMixin_test_func (obj : Post.t) (ru : RequestUser) : bool :=
  same_user (Author.user (Post.author obj)) ru || is_staff ru.

(** [UserPassesTestMixin.dispatch]: the handler runs only when the test
    passes. *)
Definition UserPassesTestMixin_dispatch (test_result : bool)
  (no_permission handler : Outcome) : Outcome :=
  if test_result then handler else no_permission.

Definition post_with_id (pk : nat) (p : Post.t) : bool := Nat.eqb (Post.id p) pk.

(** The deletion a delete view performs: [self.object.delete()] and the
    redirect to [success_url]. *)
Definition delete_object (db : DB.t) (obj : Post.t) : Outcome :=
  mkOutcome (Redirect "news_list" None) []
    (DB.with_posts (filter (fun p => negb (post_with_id (Post.id obj) p)) (DB.posts db)) db)
    [].

(** A POST to one of the delete views, [NewsDelete] or [ArticleDelete]:
    the dispatch chain of the bases in method resolution order
    ([PermissionRequiredMixinWithMessage], [AuthRequiredMixin],
    [AuthorRequiredMixin], [OwnerRequiredMixin], [DeleteView]).
    [AuthorRequiredMixin] precedes [OwnerRequiredMixin] and both inherit
    the one [dispatch] of [UserPassesTestMixin], so [self.test_func] is
    that of [AuthorRequiredMixin], and [handle_no_permission] with its
    message is that of the first base; the query set of the view holds
    the posts of its type. *)
Definition DeleteView_post (kind : PostType) (db : DB.t) (ru : RequestUser) (pk : nat)
  : Outcome :=
  if negb (has_perm "news.delete_post" ru) then
    handle_no_permission InsufficientRights db
  else if negb (Models.AuthRequiredMixin_allows ru) then
    handle_no_permission InsufficientRights db
  else
    UserPassesTestMixin_dispatch
      (AuthorRequiredMixin_test_func ru)
      (handle_no_permission InsufficientRights db)
      (match Orm.get (fun p => post_with_id pk p
                               && PostType_eqb (Post.post_type p) kind)
                     (DB.posts db) with
       | Orm.Raise Orm.DoesNotExist => mkOutcome Http404 [] db []
       | Orm.Raise e => mkOutcome (ServerError e) [] db []
       | Orm.Ok obj => delete_object db obj
       end).

Definition NewsDelete_post : DB.t -> RequestUser -> nat -> Outcome :=
  DeleteView_post NEWS.

Definition ArticleDelete_post : DB.t -> RequestUser -> nat -> Outcome :=
  DeleteView_post ARTICLE.

(** *** News creation *)

(** The user holds a subscription to one of the categories. *)
Definition subscribed_to_any (db : DB.t) (cats : list nat) (uid : nat) : bool :=
  existsb (fun s => Nat.eqb (Subscription.user s) uid
                    && existsb (Nat.eqb (Subscription.category s)) cats)
          (DB.subscriptions db).


(** The submitted [PostForm]; [is_valid] is the verdict of the form's own
    validation. *)
Record PostForm := mkPostForm
  { form_title : string;
    form_content : string;
    form_categories : list nat;
    is_valid : bool }.

(** [Author.objects.get_or_create(user=request.user)]; a new profile
    starts with rating 0. *)
Definition Author_get_or_create (db : DB.t) (u : User.t)
  : Orm.result (Author.t * bool * DB.t) :=
  match author_of db u with
  | Orm.Ok a => Orm.Ok (a, false, db)
  | Orm.Raise Orm.DoesNotExist =>
      let a := Author.mk (Orm.next_id Author.id (DB.authors db)) (User.id u) 0 in
      Orm.Ok (a, true, DB.with_authors (DB.authors db ++ [a]) db)
  | Orm.Raise e => Orm.Raise e
  end.

(** [NewsCreate.form_valid]: the post is saved as NEWS under the author
    profile of the requester, its categories are attached, the
    notifications go out, and the response redirects to the new post. *)
Definition NewsCreate_form_valid (db : DB.t) (now : Z) (u : User.t) (form : PostForm)
  : Outcome :=
  match Author_get_or_create db u with
  | Orm.Raise e => mkOutcome (ServerError e) [] db []
  | Orm.Ok (author, _, db1) =>
      let post := Post.mk (Orm.next_id Post.id (DB.posts db1))
                          (form_title form) (form_content form) NEWS author now
                          (form_categories form) in
      let db2 := DB.with_posts (DB.posts db1 ++ [post]) db1 in
      mkOutcome (Redirect "news_detail" (Some (Post.id post))) [NewsCreated] db2
                (Models.send_notifications_to_subscribers db2 post)
  end.

(** A POST to [NewsCreate]: the dispatch chain of its bases in method
    resolution order ([PermissionRequiredMixinWithMessage],
    [AuthRequiredMixin], [AuthorRequiredMixin], [NewsLimitMixin]) and then
    [CreateView.post].  [handle_no_permission] and
    [permission_denied_message] resolve to the first base. *)
Definition NewsCreate_post (db : DB.t) (now : Z) (ru : RequestUser) (form : PostForm)
  : Outcome :=
  match ru with
  | AnonymousUser => handle_no_permission InsufficientRights db
  | Authenticated u =>
      if negb (has_perm "news.add_post" ru) then
        handle_no_permission InsufficientRights db
      else if negb (Models.AuthRequiredMixin_allows ru) then
        handle_no_permission InsufficientRights db
      else
        UserPassesTestMixin_dispatch
          (AuthorRequiredMixin_test_func ru)
          (handle_no_permission InsufficientRights db)
          (if negb (Models.NewsLimitMixin_allows db now ru) then
             mkOutcome (Rejected QuotaExceeded) [] db []
           else if is_valid form then NewsCreate_form_valid db now u form
           else mkOutcome (Render "news/news_edit.html" []) [] db [])
  end.

(** *** Account activation *)

Inductive ActivationStatus :=
| success (username : string)
| already_activated
| expired
| invalid.

(** The response of [ActivationView.get] (the rendered status, or the
    exception that escaped the handler) and the store it leaves. *)
Record ActivationOutcome := mkActivation
  { status : Orm.result ActivationStatus;
    store_after : DB.t }.

(** [ActivationToken.objects.select_related('user')]: every token joined
    with its user row. *)
Definition tokens_with_user (db : DB.t) : list (ActivationToken.t * User.t) :=
  flat_map
    (fun a => map (pair a)
                  (filter (fun u => Nat.eqb (User.id u) (ActivationToken.user a))
                          (DB.users db)))
    (DB.tokens db).

(** [ActivationToken.objects.select_related('user').get(token=token)] *)
Definition lookup (db : DB.t) (token : string)
  : Orm.result (ActivationToken.t * User.t) :=
  Orm.get (fun au => String.eqb (ActivationToken.token (fst au)) token)
          (tokens_with_user db).

(** [instance.save()] is an UPDATE of the row with the instance's key,
    committed at once (the settings enable neither [ATOMIC_REQUESTS] nor
    any transaction); [committed = false] is a write the database
    refuses, which raises and changes nothing. *)
Definition ActivationToken_save (committed : bool) (a : ActivationToken.t) (db : DB.t)
  : Orm.result DB.t :=
  if committed then
    Orm.Ok (DB.with_tokens
              (map (fun r => if Nat.eqb (ActivationToken.id r) (ActivationToken.id a)
                             then a else r)
                   (DB.tokens db)) db)
  else Orm.Raise Orm.DatabaseError.

Definition User_save (committed : bool) (u : User.t) (db : DB.t) : Orm.result DB.t :=
  if committed then
    Orm.Ok (DB.with_users
              (map (fun r => if Nat.eqb (User.id r) (User.id u) then u else r)
                   (DB.users db)) db)
  else Orm.Raise Orm.DatabaseError.

(** [ActivationView.get(request, token)].  [writes] tells for the n-th
    [save] of the request whether the database commits it; a missing entry
    means it does.  Only [ActivationToken.DoesNotExist] is caught. *)
Definition ActivationView_get (writes : list bool) (db : DB.t) (now : Z)
  (token : string) : ActivationOutcome :=
  match lookup db token with
  | Orm.Raise Orm.DoesNotExist => mkActivation (Orm.Ok invalid) db
  | Orm.Raise e => mkActivation (Orm.Raise e) db
  | Orm.Ok (activation_token, user) =>
      if Models.is_expired now activation_token then
        mkActivation (Orm.Ok expired) db
      else if ActivationToken.activated activation_token then
        mkActivation (Orm.Ok already_activated) db
      else
        match ActivationToken_save (nth 0 writes true)
                (ActivationToken.set_activated true activation_token) db with
        | Orm.Raise e => mkActivation (Orm.Raise e) db
        | Orm.Ok db1 =>
            match User_save (nth 1 writes true) (User.set_is_active true user) db1 with
            | Orm.Raise e => mkActivation (Orm.Raise e) db1
            | Orm.Ok db2 => mkActivation (Orm.Ok (success (User.username user))) db2
            end
        end
  end.

(** The stored [activated] flag of the token with the given key. *)
Definition token_flag (db : DB.t) (pk : nat) : option bool :=
  option_map ActivationToken.activated
    (find (fun r => Nat.eqb (ActivationToken.id r) pk) (DB.tokens db)).

(** The stored [is_active] flag of the user with the given key. *)
Definition user_flag (db : DB.t) (pk : nat) : option bool :=
  option_map User.is_active
    (find (fun r => Nat.eqb (User.id r) pk) (DB.users db)).

(** Both-or-neither, as the specification words it: after the request
    either both flags are set, or both are what they were. *)
Definition both_or_neither (writes : list bool) (db : DB.t) (now : Z)
  (a : ActivationToken.t) : Prop :=
  let db' := store_after (ActivationView_get writes db now (ActivationToken.token a)) in
  let tk := ActivationToken.id a in
  let uk := ActivationToken.user a in
  (token_flag db' tk = Some true /\ user_flag db' uk = Some true)
  \/ (token_flag db' tk = token_flag db tk /\ user_flag db' uk = user_flag db uk).

End Views.

(** ** [news/admin.py]: the action that sends notifications by hand *)

Module Admin.

Inductive LogRecord :=
| LogSent (post_title : string)
| LogSendError (post_title : string) (exception : string).

Definition log_level (r : LogRecord) : Level :=
  match r with
  | LogSent _ => INFO
  | LogSendError _ _ => ERROR
  end.

(** One call of [post.send_notifications_to_subscribers()] as the action
    sees it: the e-mails it handed to the transport and, when the call
    raised, the text of the exception. *)
Record Dispatch := mkDispatch { sent : list Email; raised : option string }.

(** The variables of the loop and what it has emitted so far. *)
Record ActionState := mkState
  { success_count : nat;
    error_count : nat;
    messages : list Flash;
    log : list LogRecord;
    dispatched : list Post.t;
    mail : list Email }.

Definition initial : ActionState := mkState 0 0 [] [] [] [].

(** The posts that pass both guards of the loop. *)
Definition eligible (post : Post.t) : bool :=
  PostType_eqb (Post.post_type post) NEWS
  && match Post.categories post with [] => false | _ :: _ => true end.

Section Action.

Variable send_notifications_to_subscribers : Post.t -> Dispatch.

(** The body of [for post in queryset]. *)
Definition visit (st : ActionState) (post : Post.t) : ActionState :=
  if negb (PostType_eqb (Post.post_type post) NEWS) then
    mkState (success_count st) (error_count st)
            (messages st ++ [NotNews (Post.title post)])
            (log st) (dispatched st) (mail st)
  else
    match Post.categories post with
    | [] =>
        mkState (success_count st) (error_count st)
                (messages st ++ [NoCategories (Post.title post)])
                (log st) (dispatched st) (mail st)
    | _ :: _ =>
        let d := send_notifications_to_subscribers post in
        match raised d with
        | None =>
            mkState (S (success_count st)) (error_count st)
                    (messages st)
                    (log st ++ [LogSent (Post.title post)])
                    (dispatched st ++ [post]) (mail st ++ sent d)
        | Some e =>
            mkState (success_count st) (S (error_count st))
                    (messages st ++ [ErrorFor (Post.title post) e])
                    (log st ++ [LogSendError (Post.title post) e])
                    (dispatched st ++ [post]) (mail st ++ sent d)
        end
    end.

(** [PostAdmin.send_notifications_action(request, queryset)]. *)
Definition send_notifications_action (queryset : list Post.t) : ActionState :=
  let st := fold_left visit queryset initial in
  if (0 <? success_count st)%nat then
    mkState (success_count st) (error_count st)
            (messages st ++ [NotificationsSent (success_count st)])
            (log st) (dispatched st) (mail st)
  else st.

(** What one post adds to the messages and to the log. *)
Definition post_messages (p : Post.t) : list Flash :=
  match Post.post_type p, Post.categories p, raised (send_notifications_to_subscribers p) with
  | ARTICLE, _, _ => [NotNews (Post.title p)]
  | NEWS, [], _ => [NoCategories (Post.title p)]
  | NEWS, _ :: _, Some e => [ErrorFor (Post.title p) e]
  | NEWS, _ :: _, None => []
  end.

Definition post_log (p : Post.t) : list LogRecord :=
  match Post.post_type p, Post.categories p, raised (send_notifications_to_subscribers p) with
  | NEWS, _ :: _, Some e => [LogSendError (Post.title p) e]
  | NEWS, _ :: _, None => [LogSent (Post.title p)]
  | _, _, _ => []
  end.

End Action.

(** The numbers a message shows to the actor. *)
Definition counts_shown (m : Flash) : list nat :=
  match m with
  | NotificationsSent n => [n]
  | _ => []
  end.

(** Some message of the action shows the count [k]. *)
Definition reports_count (k : nat) (st : ActionState) : Prop :=
  exists m, In m (messages st) /\ In k (counts_shown m).

(** The action reports both of its counters to the actor. *)
Definition reports_aggregate_counts (st : ActionState) : Prop :=
  reports_count (success_count st) st /\ reports_count (error_count st) st.

(** The posts of the query set whose dispatch raised, and those whose
    dispatch returned. *)
Definition failed (send : Post.t -> Dispatch) (queryset : list Post.t) : list Post.t :=
  filter (fun p => match raised (send p) with Some _ => true | None => false end)
         (filter eligible queryset).

Definition succeeded (send : Post.t -> Dispatch) (queryset : list Post.t) : list Post.t :=
  filter (fun p => match raised (send p) with Some _ => false | None => true end)
         (filter eligible queryset).

End Admin.

(** ** Read-only pages and the article form of [news/views.py] *)

Module Pages.
Import Views.


(** What a page handler answers: the context it renders, a 404, the
    redirect of [login_required], or an exception it does not catch. *)
Inductive PageResult (A : Type) :=
| Page (context : A)
| NotFound
| LoginRequired
| Failed (e : Orm.Exn).
Arguments Page {A} context.
Arguments NotFound {A}.
Arguments LoginRequired {A}.
Arguments Failed {A} e.

(** The entries of the context of [category_posts] that depend on the
    subscription table (the page of posts and the counters are left out). *)
Record CategoryContext := mkCategoryContext
  { category : Category.t;
    is_subscribed : bool }.

(** [category_posts(request, category_id)]: open to anonymous visitors,
    for whom [is_subscribed] stays [False]. *)
Definition category_posts (db : DB.t) (ru : RequestUser) (category_id : nat)
  : PageResult CategoryContext :=
  match Orm.get (category_with_id category_id) (DB.categories db) with
  | Orm.Raise Orm.DoesNotExist => NotFound
  | Orm.Raise e => Failed e
  | Orm.Ok category =>
      Page (mkCategoryContext category
              match ru with
              | AnonymousUser => false
              | Authenticated u =>
                  Orm.exists_ (subscription_of (User.id u) (Category.id category))
                              (DB.subscriptions db)
              end)
  end.

(** [Subscription.objects.filter(user=request.user)] *)
Definition subscriptions_of (db : DB.t) (uid : nat) : list Subscription.t :=
  filter (fun s => Nat.eqb (Subscription.user s) uid) (DB.subscriptions db).

Record SubscriptionsContext := mkSubscriptionsContext
  { subscriptions : list Subscription.t;
    total_subscriptions : nat }.

(** [my_subscriptions(request)] behind [login_required] (the annotated
    list of all categories is left out). *)
Definition my_subscriptions (db : DB.t) (ru : RequestUser)
  : PageResult SubscriptionsContext :=
  match ru with
  | AnonymousUser => LoginRequired
  | Authenticated u =>
      Page (mkSubscriptionsContext (subscriptions_of db (User.id u))
              (List.length (subscriptions_of db (User.id u))))
  end.

(** The two posts share a category ([categories__in]). *)
Definition shares_category (obj p : Post.t) : bool :=
  existsb (fun c => existsb (Nat.eqb c) (Post.categories obj)) (Post.categories p).

(** [similar_posts] of [NewsDetail.get_context_data]: news posts sharing a
    category with the post, the post itself excluded, each once, the
    first five in the order of the table. *)
Definition similar_posts (db : DB.t) (obj : Post.t) : list Post.t :=
  firstn 5
    (filter (fun p => shares_category obj p
                      && PostType_eqb (Post.post_type p) NEWS
                      && negb (post_with_id (Post.id obj) p))
            (DB.posts db)).

(** [user_subscribed_categories]: the [category_id] of every
    subscription of the user to a category of the post. *)
Definition user_subscribed_categories (db : DB.t) (uid : nat) (obj : Post.t)
  : list nat :=
  map Subscription.category
    (filter (fun s => Nat.eqb (Subscription.user s) uid
                      && existsb (Nat.eqb (Subscription.category s)) (Post.categories obj))
            (DB.subscriptions db)).

Record DetailContext := mkDetailContext
  { news : Post.t;
    subscribed_categories : option (list nat);
    similar : list Post.t }.

(** [NewsDetail]: the object comes from the NEWS posts only; the
    subscription entry is present for authenticated visitors only. *)
Definition NewsDetail (db : DB.t) (ru : RequestUser) (pk : nat)
  : PageResult DetailContext :=
  match Orm.get (fun p => post_with_id pk p && PostType_eqb (Post.post_type p) NEWS)
                (DB.posts db) with
  | Orm.Raise Orm.DoesNotExist => NotFound
  | Orm.Raise e => Failed e
  | Orm.Ok obj =>
      Page (mkDetailContext obj
              match ru with
              | AnonymousUser => None
              | Authenticated u => Some (user_subscribed_categories db (User.id u) obj)
              end
              (similar_posts db obj))
  end.

(** Profiles stored for the user. *)
Definition profiles_of (db : DB.t) (u : User.t) : list Author.t :=
  filter (fun a => Nat.eqb (Author.user a) (User.id u)) (DB.authors db).

(** [ArticleCreate.form_valid]: the post is saved as ARTICLE under the
    author profile of the requester with the categories of the form; no
    notification is sent.  The answer is the saved object with the store
    (the response is the redirect to it with the success message). *)
Definition ArticleCreate_form_valid (db : DB.t) (now : Z) (u : User.t) (form : PostForm)
  : Orm.result (Post.t * DB.t) :=
  match Author_get_or_create db u with
  | Orm.Raise e => Orm.Raise e
  | Orm.Ok (author, _, db1) =>
      let post := Post.mk (Orm.next_id Post.id (DB.posts db1))
                          (form_title form) (form_content form) ARTICLE author now
                          (form_categories form) in
      Orm.Ok (post, DB.with_posts (DB.posts db1 ++ [post]) db1)
  end.

(** *** Sending the activation letter again *)

Definition SITE_URL : string := "http://127.0.0.1:8000".

(** The link put into the letter for a token. *)
Definition activation_url (token : string) : string :=
  SITE_URL ++ "/accounts/activate/" ++ token ++ "/".

Inductive ResendFlash :=
| AccountAlreadyActivated
| NewLetterSent
| LetterSent.

(** A call of [EmailService.send_welcome_email(user, activation_url)]. *)
Record WelcomeEmail := mkWelcome { welcome_user : nat; welcome_url : string }.

Record ResendOutcome := mkResend
  { resend_response : HttpResponse;
    resend_flashes : list ResendFlash;
    resend_store : DB.t;
    welcome_sent : list WelcomeEmail }.

(** [activation_token.delete()]: the row with the key of the instance. *)
Definition ActivationToken_delete (a : ActivationToken.t) (db : DB.t) : DB.t :=
  DB.with_tokens
    (filter (fun r => negb (Nat.eqb (ActivationToken.id r) (ActivationToken.id a)))
            (DB.tokens db)) db.

Section Resend.

(** [ActivationToken.is_expired] and [ActivationToken.create_token] belong
    to [news/models.py]; the handler is modelled for whatever they do. *)
Variable is_expired : Z -> ActivationToken.t -> bool.
Variable create_token : DB.t -> Z -> User.t -> ActivationToken.t * DB.t.

(** [resend_activation_email(request)] behind [login_required]. *)
Definition resend_activation_email (db : DB.t) (now : Z) (ru : RequestUser)
  : ResendOutcome :=
  match ru with
  | AnonymousUser => mkResend RedirectToLogin [] db []
  | Authenticated u =>
      let letter a := mkWelcome (User.id u) (activation_url (ActivationToken.token a)) in
      match Orm.get (fun a => Nat.eqb (ActivationToken.user a) (User.id u))
                    (DB.tokens db) with
      | Orm.Ok activation_token =>
          if ActivationToken.activated activation_token then
            mkResend (Redirect "profile" None) [AccountAlreadyActivated] db []
          else if is_expired now activation_token then
            let (new_token, db') :=
              create_token (ActivationToken_delete activation_token db) now u in
            mkResend (Redirect "profile" None) [NewLetterSent] db' [letter new_token]
          else
            mkResend (Redirect "profile" None) [LetterSent] db [letter activation_token]
      | Orm.Raise Orm.DoesNotExist =>
          let (new_token, db') := create_token db now u in
          mkResend (Redirect "profile" None) [LetterSent] db' [letter new_token]
      | Orm.Raise e => mkResend (ServerError e) [] db []
      end
  end.

End Resend.

End Pages.

(** ** Filters and columns of [news/admin.py] *)

Module AdminColumns.

(** [CategoryFilter.queryset]: with a value, the join of the posts with
    their category rows on that category (one row per matching
    attachment); without a value, the query set as it is. *)
Definition CategoryFilter_queryset (value : option nat) (queryset : list Post.t)
  : list Post.t :=
  match value with
  | Some v =>
      flat_map (fun p => map (fun _ => p) (filter (Nat.eqb v) (Post.categories p)))
               queryset
  | None => queryset
  end.

(** [AuthorFilter.queryset] *)
Definition AuthorFilter_queryset (value : option nat) (queryset : list Post.t)
  : list Post.t :=
  match value with
  | Some v => filter (fun p => Nat.eqb (Author.id (Post.author p)) v) queryset
  | None => queryset
  end.

(** [obj.post_set]: the posts of the author. *)
Definition post_set (db : DB.t) (a : Author.t) : list Post.t :=
  filter (fun p => Nat.eqb (Author.id (Post.author p)) (Author.id a)) (DB.posts db).

(** [AuthorAdmin.posts_count] *)
Definition posts_count (db : DB.t) (a : Author.t) : nat :=
  List.length (post_set db a).

(** The creation time of the first post by descending [created_at]. *)
Fixpoint latest_created_at (posts : list Post.t) : option Z :=
  match posts with
  | [] => None
  | p :: rest =>
      match latest_created_at rest with
      | None => Some (Post.created_at p)
      | Some t => Some (Z.max (Post.created_at p) t)
      end
  end.

(** [AuthorAdmin.last_post_date]; [None] is the text shown for an author
    without posts. *)
Definition last_post_date (db : DB.t) (a : Author.t) : option Z :=
  latest_created_at (post_set db a).

(** The posts the loop of [send_notifications_action] skips. *)
Definition skipped (queryset : list Post.t) : list Post.t :=
  filter (fun p => negb (Admin.eligible p)) queryset.

Inductive TokenStatus := Activated | Expired | Pending.

(** [ActivationTokenAdmin.status] *)
Definition status (now : Z) (obj : ActivationToken.t) : TokenStatus :=
  if ActivationToken.activated obj then Activated
  else if Models.is_expired now obj then Expired
  else Pending.

End AdminColumns.

(** ** Concrete stores used to exercise the handlers *)

Module Scenario.

Definition T0 : Z := 1700000000.

Definition alice : User.t :=
  User.mk 1 "alice" "alice@example.org" true false false
          ["authors"] ["news.add_post"; "news.change_post"; "news.delete_post"].

Definition bob : User.t :=
  User.mk 2 "bob" "bob@example.org" true false false [] [].

Definition carol : User.t :=
  User.mk 3 "carol" "carol@example.org" true true false [] [].

(** A second author, neither staff nor owner of any post. *)
Definition erin : User.t :=
  User.mk 5 "erin" "erin@example.org" true false false
          ["authors"] ["news.add_post"; "news.change_post"; "news.delete_post"].

Definition alice_author : Author.t := Author.mk 1 1 0.

Definition politics : Category.t := Category.mk 1 "politics".
Definition sport : Category.t := Category.mk 2 "sport".

(** Two users, two categories, bob subscribed to sport. *)
Definition db0 : DB.t :=
  DB.mk [alice; bob; carol] [alice_author] [politics; sport] []
        [Subscription.mk 1 2 2 T0] [].

(** alice has published one article today and no news. *)
Definition essay : Post.t :=
  Post.mk 1 "essay" "text" ARTICLE alice_author T0 [1%nat].

Definition db_article : DB.t := DB.with_posts [essay] db0.

(** alice has published three news posts today. *)
Definition news (pk : nat) (at_ : Z) : Post.t :=
  Post.mk pk "news" "text" NEWS alice_author at_ [1%nat].

Definition db_three_news : DB.t :=
  DB.with_posts [news 1 T0; news 2 (T0 + 10); news 3 (T0 + 20)] db0.

Definition draft : Views.PostForm := Views.mkPostForm "fourth" "text" [1%nat] true.

(** bob is subscribed to both categories, carol to sport only. *)
Definition db_two_categories : DB.t :=
  DB.with_subscriptions
    [Subscription.mk 1 2 1 T0; Subscription.mk 2 2 2 T0; Subscription.mk 3 3 2 T0]
    db0.

Definition both_categories : Views.PostForm :=
  Views.mkPostForm "budget" "text" [1%nat; 2%nat] true.

(** dave signed up at [T0] and has not activated the account yet. *)
Definition dave : User.t :=
  User.mk 4 "dave" "dave@example.org" false false false [] [].

Definition dave_token : ActivationToken.t :=
  ActivationToken.mk 1 4 "tok-dave" T0 false.

Definition db_pending : DB.t :=
  DB.with_tokens [dave_token] (DB.with_users [alice; bob; carol; dave] db0).

(** The same account after a successful activation. *)
Definition db_activated : DB.t :=
  DB.with_tokens [ActivationToken.set_activated true dave_token]
    (DB.with_users [alice; bob; carol; User.set_is_active true dave] db0).

(** Posts handed to the admin action: a news post with categories, an
    article, a news post without category, and two news posts whose
    dispatch raises. *)
Definition budget : Post.t :=
  Post.mk 10 "budget" "text" NEWS alice_author T0 [1%nat; 2%nat].

Definition untagged : Post.t :=
  Post.mk 11 "untagged" "text" NEWS alice_author T0 [].

Definition boom (pk : nat) : Post.t :=
  Post.mk pk "boom" "text" NEWS alice_author T0 [2%nat].

(** A dispatch that raises for the posts titled boom and otherwise does
    what the dispatcher of the specification does. *)
Definition flaky_send (p : Post.t) : Admin.Dispatch :=
  if String.eqb (Post.title p) "boom" then
    Admin.mkDispatch [] (Some "SMTPException")
  else
    Admin.mkDispatch (Models.send_notifications_to_subscribers db_two_categories p) None.

End Scenario.

(** * Properties *)

(** ** Query sets *)

Section OrmFacts.

Context {A : Type}.
Variable p : A -> bool.

Lemma get_Ok_filter (rows : list A) (a : A) :
  Orm.get p rows = Orm.Ok a -> filter p rows = [a].
Proof.
  unfold Orm.get. destruct (filter p rows) as [|x [|y l]]; congruence.
Qed.

Lemma get_DoesNotExist_filter (rows : list A) :
  Orm.get p rows = Orm.Raise Orm.DoesNotExist -> filter p rows = [].
Proof.
  unfold Orm.get. destruct (filter p rows) as [|x [|y l]]; congruence.
Qed.

Lemma get_of_singleton (rows : list A) (a : A) :
  filter p rows = [a] -> Orm.get p rows = Orm.Ok a.
Proof. unfold Orm.get. now intros ->. Qed.

Lemma get_Ok_holds (rows : list A) (a : A) :
  Orm.get p rows = Orm.Ok a -> In a rows /\ p a = true.
Proof.
  intros H. apply get_Ok_filter in H.
  apply filter_In. rewrite H. now left.
Qed.

Lemma count_le_1_get (rows : list A) :
  (Orm.count p rows <= 1)%nat ->
  Orm.get p rows = Orm.Raise Orm.DoesNotExist \/ exists a, Orm.get p rows = Orm.Ok a.
Proof.
  unfold Orm.count, Orm.get.
  destruct (filter p rows) as [|x [|y l]]; simpl; intros H.
  - now left.
  - right. now exists x.
  - lia.
Qed.

Lemma filter_none_id (rows : list A) :
  filter p rows = [] -> filter (fun r => negb (p r)) rows = rows.
Proof.
  induction rows as [|x l IH]; simpl; [reflexivity|].
  destruct (p x); simpl; [discriminate|].
  intros H. now rewrite IH.
Qed.

Lemma filter_negb_none (rows : list A) :
  filter p (filter (fun r => negb (p r)) rows) = [].
Proof.
  induction rows as [|x l IH]; simpl; [reflexivity|].
  destruct (p x) eqn:E; simpl; [assumption|].
  now rewrite E.
Qed.

End OrmFacts.

(** ** Subscriptions *)

Module SubscriptionFacts.
Import Views.

Lemma subscription_of_new (db : DB.t) (now : Z) (uid cid : nat) :
  subscription_of uid cid
    (Subscription.mk (Orm.next_id Subscription.id (DB.subscriptions db)) uid cid now)
  = true.
Proof. unfold subscription_of; simpl. now rewrite !Nat.eqb_refl. Qed.

Lemma get_or_create_existing (db : DB.t) (now : Z) (uid cid : nat) (s : Subscription.t) :
  (rows_for uid cid db <= 1)%nat ->
  In s (DB.subscriptions db) ->
  subscription_of uid cid s = true ->
  Subscription_get_or_create db now uid cid = Orm.Ok (s, false, db).
Proof.
  intros Hle Hin Hs. unfold Subscription_get_or_create, Orm.get.
  assert (Hf : In s (filter (subscription_of uid cid) (DB.subscriptions db)))
    by (apply filter_In; now split).
  unfold rows_for, Orm.count in Hle.
  destruct (filter (subscription_of uid cid) (DB.subscriptions db)) as [|x [|y l]];
    simpl in *.
  - contradiction.
  - destruct Hf as [->|[]]. reflexivity.
  - lia.
Qed.

Lemma get_or_create_fresh (db : DB.t) (now : Z) (uid cid : nat) :
  rows_for uid cid db = 0%nat ->
  let s := Subscription.mk (Orm.next_id Subscription.id (DB.subscriptions db))
                           uid cid now in
  let db1 := DB.with_subscriptions (DB.subscriptions db ++ [s]) db in
  Subscription_get_or_create db now uid cid = Orm.Ok (s, true, db1)
  /\ filter (subscription_of uid cid) (DB.subscriptions db1) = [s].
Proof.
  intros H0 s db1. unfold rows_for, Orm.count in H0.
  apply length_zero_iff_nil in H0.
  split.
  - unfold Subscription_get_or_create, Orm.get. now rewrite H0.
  - unfold db1; simpl. rewrite filter_app, H0; simpl.
    unfold s. now rewrite subscription_of_new.
Qed.

(** The two handlers keep the invariant, so every store reached from an
    empty subscription table through them satisfies it. *)
Lemma get_or_create_keeps_invariant (db : DB.t) (now : Z) (uid cid : nat)
  (s : Subscription.t) (created : bool) (db1 : DB.t) :
  at_most_one_row_per_pair db ->
  Subscription_get_or_create db now uid cid = Orm.Ok (s, created, db1) ->
  at_most_one_row_per_pair db1.
Proof.
  intros Hinv. unfold Subscription_get_or_create.
  destruct (Orm.get _ _) as [s0|[]] eqn:Hg; intros H; inversion H; subst; clear H;
    [assumption|].
  apply get_DoesNotExist_filter in Hg.
  intros uid' cid'. specialize (Hinv uid' cid').
  unfold rows_for, Orm.count in *; simpl. rewrite filter_app, length_app; simpl.
  destruct (subscription_of uid' cid' _) eqn:E; simpl; [|lia].
  unfold subscription_of in E; simpl in E. apply andb_true_iff in E.
  destruct E as [Eu Ec]. apply Nat.eqb_eq in Eu, Ec. subst uid' cid'.
  rewrite Hg. simpl. lia.
Qed.

Lemma filter_filter_length {A : Type} (p q : A -> bool) (rows : list A) :
  (List.length (filter p (filter q rows)) <= List.length (filter p rows))%nat.
Proof.
  induction rows as [|x l IH]; simpl; [lia|].
  destruct (q x); simpl; destruct (p x); simpl; lia.
Qed.

Lemma delete_keeps_invariant (db : DB.t) (uid cid : nat) :
  at_most_one_row_per_pair db ->
  at_most_one_row_per_pair (snd (Subscription_delete db uid cid)).
Proof.
  intros Hinv uid' cid'. specialize (Hinv uid' cid').
  unfold rows_for, Orm.count, Subscription_delete, Orm.delete in *; simpl.
  etransitivity; [apply filter_filter_length|exact Hinv].
Qed.

(** Two calls of [get_or_create] in sequence on a store with at most one
    row for the pair. *)
Lemma get_or_create_twice (db : DB.t) (now now' : Z) (uid cid : nat) :
  (rows_for uid cid db <= 1)%nat ->
  exists s created db1,
    Subscription_get_or_create db now uid cid = Orm.Ok (s, created, db1)
    /\ (created = true <-> rows_for uid cid db = 0%nat)
    /\ Subscription_get_or_create db1 now' uid cid = Orm.Ok (s, false, db1)
    /\ rows_for uid cid db1 = 1%nat
    /\ DB.categories db1 = DB.categories db.
Proof.
  intros Hle.
  destruct (rows_for uid cid db) as [|[|n]] eqn:Hn; [| |lia].
  - destruct (get_or_create_fresh db now uid cid Hn) as [Hfirst Hrows].
    eexists _, true, _. split; [exact Hfirst|].
    split; [tauto|]. split; [|split; [|reflexivity]].
    + unfold Subscription_get_or_create.
      now rewrite (get_of_singleton _ _ _ Hrows).
    + unfold rows_for, Orm.count. now rewrite Hrows.
  - unfold rows_for, Orm.count in Hn.
    destruct (filter (subscription_of uid cid) (DB.subscriptions db))
      as [|s [|y l]] eqn:Hf; try discriminate.
    assert (Hget : Subscription_get_or_create db now' uid cid = Orm.Ok (s, false, db)).
    { unfold Subscription_get_or_create. now rewrite (get_of_singleton _ _ _ Hf). }
    exists s, false, db. split.
    { unfold Subscription_get_or_create. now rewrite (get_of_singleton _ _ _ Hf). }
    split; [split; intros; discriminate|]. split; [exact Hget|].
    split; [|reflexivity]. unfold rows_for, Orm.count. now rewrite Hf.
Qed.

(** The handler shows the outcome of [get_or_create] as its message and
    keeps the store [get_or_create] returned. *)
Lemma subscribe_to_category_flash (db : DB.t) (now : Z) (u : User.t)
  (category_id : nat) (category : Category.t) s created db1 :
  Orm.get (category_with_id category_id) (DB.categories db) = Orm.Ok category ->
  Subscription_get_or_create db now (User.id u) category_id = Orm.Ok (s, created, db1) ->
  subscribe_to_category db now (Authenticated u) category_id
  = mkOutcome (Redirect "category_posts" (Some category_id))
              [if created then Subscribed (Category.name category)
               else AlreadySubscribed (Category.name category)]
              db1 [].
Proof.
  intros Hc Hg. unfold subscribe_to_category. rewrite Hc.
  apply get_Ok_holds in Hc. destruct Hc as [_ Hid].
  unfold category_with_id in Hid. apply Nat.eqb_eq in Hid. rewrite Hid, Hg.
  reflexivity.
Qed.

(** C2: subscribing is idempotent.  On a store with at most one row per
    pair, [get_or_create] hands back a row that already exists for the
    pair with [created = false] and the store untouched, and never raises.
    Two calls in sequence leave exactly one row for the pair; the second
    reports [created = false] and returns the row of the first; the first
    reports [created = true] exactly when no row existed.  The handler
    answers the first call with the success message when the row was
    created and with the "already subscribed" note otherwise, and the
    second call with the note. *)
Theorem subscribe_idempotent (db : DB.t) (now now' : Z) (u : User.t)
  (category_id : nat) (category : Category.t) :
  at_most_one_row_per_pair db ->
  Orm.get (category_with_id category_id) (DB.categories db) = Orm.Ok category ->
  let uid := User.id u in
  let redirect := Redirect "category_posts" (Some category_id) in
  (forall s, In s (DB.subscriptions db) -> subscription_of uid category_id s = true ->
             Subscription_get_or_create db now uid category_id = Orm.Ok (s, false, db))
  /\ exists s created db1,
       Subscription_get_or_create db now uid category_id = Orm.Ok (s, created, db1)
       /\ (created = true <-> rows_for uid category_id db = 0%nat)
       /\ Subscription_get_or_create db1 now' uid category_id = Orm.Ok (s, false, db1)
       /\ rows_for uid category_id db1 = 1%nat
       /\ subscribe_to_category db now (Authenticated u) category_id
          = mkOutcome redirect
              [if created then Subscribed (Category.name category)
               else AlreadySubscribed (Category.name category)] db1 []
       /\ subscribe_to_category db1 now' (Authenticated u) category_id
          = mkOutcome redirect [AlreadySubscribed (Category.name category)] db1 [].
Proof.
  intros Hinv Hc uid redirect. split.
  - intros s Hin Hs. now apply get_or_create_existing.
  - destruct (get_or_create_twice db now now' uid category_id (Hinv uid category_id))
      as (s & created & db1 & Hfirst & Hcreated & Hsecond & Hrows & Hcats).
    exists s, created, db1. repeat (split; [assumption|]). split.
    + now apply (subscribe_to_category_flash db now u category_id category s).
    + apply (subscribe_to_category_flash db1 now' u category_id category s false);
        [now rewrite Hcats|assumption].
Qed.

Lemma db0_at_most_one_row_per_pair : at_most_one_row_per_pair Scenario.db0.
Proof.
  intros uid cid. unfold rows_for, Orm.count; simpl.
  destruct (subscription_of uid cid _); simpl; lia.
Qed.

Lemma subscribe_idempotent_witness :
  at_most_one_row_per_pair Scenario.db0
  /\ Orm.get (category_with_id 2) (DB.categories Scenario.db0) = Orm.Ok Scenario.sport
  /\ exists s db1,
       Subscription_get_or_create Scenario.db0 Scenario.T0 1 2 = Orm.Ok (s, true, db1)
       /\ Subscription_get_or_create db1 (Scenario.T0 + 5) 1 2 = Orm.Ok (s, false, db1)
       /\ rows_for 1 2 db1 = 1%nat
       /\ flashes (subscribe_to_category Scenario.db0 Scenario.T0
                     (Authenticated Scenario.alice) 2) = [Subscribed "sport"]
       /\ flashes (subscribe_to_category db1 (Scenario.T0 + 5)
                     (Authenticated Scenario.alice) 2) = [AlreadySubscribed "sport"].
Proof.
  split; [exact db0_at_most_one_row_per_pair|]. split; [reflexivity|].
  destruct (subscribe_idempotent Scenario.db0 Scenario.T0 (Scenario.T0 + 5)
              Scenario.alice 2 Scenario.sport db0_at_most_one_row_per_pair eq_refl)
    as (_ & s & created & db1 & Hfirst & Hcreated & Hsecond & Hrows & Hv1 & Hv2).
  assert (Hc : created = true) by (apply Hcreated; reflexivity). subst created.
  exists s, db1. split; [exact Hfirst|]. split; [exact Hsecond|].
  split; [exact Hrows|]. split; [now rewrite Hv1|now rewrite Hv2].
Defined.

(** C9: unsubscribing deletes the rows of the pair and returns how many
    there were: afterwards the pair has no row and every other row is
    kept; with no row for the pair the count is 0 and the store is the
    same; the handler answers with the "removed" message exactly when the
    count is positive and with the "was not subscribed" warning otherwise. *)
Theorem unsubscribe_count (db : DB.t) (u : User.t) (category_id : nat)
  (category : Category.t) :
  Orm.get (category_with_id category_id) (DB.categories db) = Orm.Ok category ->
  let uid := User.id u in
  let deleted_count := fst (Subscription_delete db uid category_id) in
  let db' := snd (Subscription_delete db uid category_id) in
  deleted_count = rows_for uid category_id db
  /\ rows_for uid category_id db' = 0%nat
  /\ (forall s, In s (DB.subscriptions db') <->
                In s (DB.subscriptions db) /\ subscription_of uid category_id s = false)
  /\ (rows_for uid category_id db = 0%nat -> deleted_count = 0%nat /\ db' = db)
  /\ unsubscribe_from_category db (Authenticated u) category_id
     = mkOutcome (Redirect "category_posts" (Some category_id))
                 [if (0 <? deleted_count)%nat then Unsubscribed (Category.name category)
                  else WasNotSubscribed (Category.name category)]
                 db' [].
Proof.
  intros Hc uid deleted_count db'.
  unfold deleted_count, db', Subscription_delete, Orm.delete; simpl.
  split; [reflexivity|]. split; [|split; [|split]].
  - unfold rows_for, Orm.count; simpl. now rewrite filter_negb_none.
  - intros s. rewrite filter_In, negb_true_iff. tauto.
  - intros H. unfold rows_for, Orm.count in H. apply length_zero_iff_nil in H.
    rewrite H, (filter_none_id _ _ H). split; [reflexivity|now destruct db].
  - unfold unsubscribe_from_category. rewrite Hc.
    apply get_Ok_holds in Hc. destruct Hc as [_ Hid].
    unfold category_with_id in Hid. apply Nat.eqb_eq in Hid. rewrite Hid.
    reflexivity.
Qed.

Lemma unsubscribe_count_witness :
  Orm.get (category_with_id 2) (DB.categories Scenario.db0) = Orm.Ok Scenario.sport
  /\ fst (Subscription_delete Scenario.db0 2 2) = rows_for 2 2 Scenario.db0
  /\ rows_for 2 2 (snd (Subscription_delete Scenario.db0 2 2)) = 0%nat
  /\ unsubscribe_from_category Scenario.db0 (Authenticated Scenario.bob) 2
     = mkOutcome (Redirect "category_posts" (Some 2%nat))
                 [if (0 <? fst (Subscription_delete Scenario.db0 2 2))%nat
                  then Unsubscribed "sport" else WasNotSubscribed "sport"]
                 (snd (Subscription_delete Scenario.db0 2 2)) [].
Proof.
  split; [reflexivity|].
  destruct (unsubscribe_count Scenario.db0 Scenario.bob 2 Scenario.sport eq_refl)
    as (Hcount & Hgone & _ & _ & Hview).
  split; [exact Hcount|]. split; [exact Hgone|exact Hview].
Defined.

(** Unsubscribing a user who holds no subscription: count 0, same store. *)
Example unsubscribe_not_subscribed :
  Subscription_delete Scenario.db0 1 2 = (0%nat, Scenario.db0)
  /\ flashes (unsubscribe_from_category Scenario.db0 (Authenticated Scenario.alice) 2)
     = [WasNotSubscribed "sport"].
Proof. split; reflexivity. Qed.

End SubscriptionFacts.

(** ** Daily news quota *)

Module QuotaFacts.
Import Views.

(** The limit entries of the news-creation form follow the formula. *)
Lemma news_remaining_formula (db : DB.t) (now : Z) (u : User.t) (a : Author.t) :
  author_of db u = Orm.Ok a ->
  context_get "news_remaining" (NewsCreate_get_context_data db now (Authenticated u))
  = Some (Models.remaining db now a).
Proof.
  intros H. unfold NewsCreate_get_context_data. rewrite H. reflexivity.
Qed.

(** The dashboard counts every post of the author since midnight, so its
    count is never below the count of news. *)
Lemma posts_today_ge_news (db : DB.t) (now : Z) (a : Author.t) :
  Models.get_news_count_today db now a <= posts_today db now a.
Proof.
  unfold Models.get_news_count_today, posts_today, Orm.count.
  apply inj_le. induction (DB.posts db) as [|p l IH]; simpl; [lia|].
  destruct (PostType_eqb (Post.post_type p) NEWS); simpl;
    destruct (Nat.eqb _ _ && (_ <=? _)); simpl; lia.
Qed.

(** C1 at an author with one article and no news today: the quota of
    section 4.2 is 3 and the news-creation form shows 3, but the dashboard
    counts the article and shows 2. *)
Theorem author_dashboard_counts_articles :
  let db := Scenario.db_article in
  let now := Scenario.T0 + 60 in
  let ru := Authenticated Scenario.alice in
  Models.get_news_count_today db now Scenario.alice_author = 0
  /\ Models.remaining db now Scenario.alice_author = 3
  /\ context_get "news_remaining" (NewsCreate_get_context_data db now ru) = Some 3
  /\ context_get "posts_today" (rendered_context (author_dashboard db now ru)) = Some 1
  /\ context_get "news_limit_remaining" (rendered_context (author_dashboard db now ru))
     = Some 2.
Proof. repeat split. Qed.

(** C3: once the author has three or more news posts since midnight,
    [remaining] is 0 and a further POST to the news-creation view by that
    author (who holds the permission and the group) is rejected with
    [QuotaExceeded]: nothing is stored, flashed or mailed. *)
Theorem fourth_news_rejected (db : DB.t) (now : Z) (u : User.t) (a : Author.t)
  (form : PostForm) :
  has_perm "news.add_post" (Authenticated u) = true ->
  in_group "authors" (Authenticated u) = true ->
  author_of db u = Orm.Ok a ->
  3 <= Models.get_news_count_today db now a ->
  Models.remaining db now a = 0
  /\ NewsCreate_post db now (Authenticated u) form
     = mkOutcome (Rejected QuotaExceeded) [] db [].
Proof.
  intros Hperm Hgroup Ha Hcount.
  assert (Hrem : Models.remaining db now a = 0)
    by (unfold Models.remaining; lia).
  split; [exact Hrem|].
  unfold NewsCreate_post, AuthorRequiredMixin_test_func, UserPassesTestMixin_dispatch,
    Models.NewsLimitMixin_allows, Models.AuthRequiredMixin_allows.
  rewrite Hperm, Hgroup; simpl.
  unfold author_of in Ha. rewrite Ha, Hrem. reflexivity.
Qed.

Lemma fourth_news_rejected_witness :
  3 <= Models.get_news_count_today Scenario.db_three_news (Scenario.T0 + 60)
         Scenario.alice_author
  /\ Models.remaining Scenario.db_three_news (Scenario.T0 + 60) Scenario.alice_author = 0
  /\ NewsCreate_post Scenario.db_three_news (Scenario.T0 + 60)
       (Authenticated Scenario.alice) Scenario.draft
     = mkOutcome (Rejected QuotaExceeded) [] Scenario.db_three_news [].
Proof.
  split; [vm_compute; discriminate|].
  apply (fourth_news_rejected Scenario.db_three_news (Scenario.T0 + 60)
           Scenario.alice Scenario.alice_author Scenario.draft);
    [reflexivity | reflexivity | reflexivity | vm_compute; discriminate].
Defined.

(** Below the limit the same request stores the post. *)
Example third_news_accepted :
  let o := NewsCreate_post (DB.with_posts [Scenario.news 1 Scenario.T0] Scenario.db0)
             (Scenario.T0 + 60) (Authenticated Scenario.alice) Scenario.draft in
  response o = Redirect "news_detail" (Some 2%nat)
  /\ List.length (DB.posts (store o)) = 2%nat.
Proof. split; reflexivity. Qed.

End QuotaFacts.

(** ** Notification of subscribers on publication *)

Module NotificationFacts.
Import Views.

Lemma count_occ_nodup (l : list nat) (x : nat) :
  count_occ Nat.eq_dec (nodup Nat.eq_dec l) x
  = if in_dec Nat.eq_dec x l then 1%nat else 0%nat.
Proof.
  destruct (in_dec Nat.eq_dec x l) as [Hin|Hout].
  - apply (nodup_In Nat.eq_dec) in Hin.
    pose proof (proj1 (NoDup_count_occ Nat.eq_dec _) (NoDup_nodup Nat.eq_dec l) x).
    apply (count_occ_In Nat.eq_dec) in Hin. lia.
  - apply count_occ_not_In. now rewrite nodup_In.
Qed.

Lemma subscribers_of_spec (db : DB.t) (cats : list nat) (uid : nat) :
  In uid (Models.subscribers_of db cats) <-> subscribed_to_any db cats uid = true.
Proof.
  unfold Models.subscribers_of, subscribed_to_any.
  rewrite nodup_In, in_map_iff, existsb_exists. split.
  - intros (s & Hu & Hs). apply filter_In in Hs. destruct Hs as [Hin Hc].
    exists s. split; [assumption|]. rewrite Hc, andb_true_r. now apply Nat.eqb_eq.
  - intros (s & Hin & Hs). apply andb_true_iff in Hs. destruct Hs as [Hu Hc].
    exists s. split; [now apply Nat.eqb_eq|]. apply filter_In. now split.
Qed.

Lemma recipients_of_notifications (p : Post.t) (uids : list nat) :
  map recipient (map (Models.notification p) uids) = uids.
Proof. rewrite map_map; simpl. apply map_id. Qed.

(** The dispatcher of a NEWS post with a category mails every subscriber
    of one of its categories once and nobody else. *)
Lemma dispatch_once_per_subscriber (db : DB.t) (p : Post.t) (uid : nat) :
  Post.post_type p = NEWS ->
  Post.categories p <> [] ->
  count_occ Nat.eq_dec
    (map recipient (Models.send_notifications_to_subscribers db p)) uid
  = if subscribed_to_any db (Post.categories p) uid then 1%nat else 0%nat.
Proof.
  intros Hnews Hcats. unfold Models.send_notifications_to_subscribers.
  rewrite Hnews. destruct (Post.categories p) as [|c cats] eqn:E; [congruence|].
  rewrite recipients_of_notifications. unfold Models.subscribers_of.
  rewrite count_occ_nodup.
  pose proof (subscribers_of_spec db (c :: cats) uid) as Hspec.
  unfold Models.subscribers_of in Hspec. rewrite nodup_In in Hspec.
  destruct (in_dec Nat.eq_dec uid _) as [Hin|Hout];
    destruct (subscribed_to_any db (c :: cats) uid); try reflexivity.
  - apply Hspec in Hin. discriminate.
  - exfalso. apply Hout. now apply Hspec.
Qed.

(** C4: a news post saved through [NewsCreate.form_valid] with at least
    one category is stored as NEWS with the categories of the form, and
    the notifications sent for it go to the union of the subscribers of
    those categories, one e-mail per user: a user subscribed to any of the
    categories (to one or to several) receives exactly one, every other
    user none, and each e-mail carries the title of the post and points
    to it. *)
Theorem one_email_per_subscriber (db : DB.t) (now : Z) (u : User.t) (form : PostForm)
  (a : Author.t) (created : bool) (db1 : DB.t) :
  Author_get_or_create db u = Orm.Ok (a, created, db1) ->
  form_categories form <> [] ->
  let o := NewsCreate_form_valid db now u form in
  (exists post,
      In post (DB.posts (store o))
      /\ Post.post_type post = NEWS
      /\ Post.categories post = form_categories form
      /\ outbox o = Models.send_notifications_to_subscribers (store o) post
      /\ forall m, In m (outbox o) ->
                   subject m = Post.title post /\ link m = Post.id post)
  /\ NoDup (map recipient (outbox o))
  /\ forall uid,
       count_occ Nat.eq_dec (map recipient (outbox o)) uid
       = if subscribed_to_any db (form_categories form) uid then 1%nat else 0%nat.
Proof.
  intros Ha Hcats o. unfold o, NewsCreate_form_valid. rewrite Ha; simpl.
  set (post := Post.mk _ _ _ NEWS a now (form_categories form)).
  set (db2 := DB.with_posts (DB.posts db1 ++ [post]) db1).
  assert (Hsubs : DB.subscriptions db2 = DB.subscriptions db).
  { unfold db2; simpl. unfold Author_get_or_create in Ha.
    destruct (author_of db u) as [a0|[]]; inversion Ha; reflexivity. }
  assert (Hcount : forall uid,
             count_occ Nat.eq_dec
               (map recipient (Models.send_notifications_to_subscribers db2 post)) uid
             = if subscribed_to_any db (form_categories form) uid then 1%nat else 0%nat).
  { intros uid. rewrite dispatch_once_per_subscriber by (simpl; auto).
    unfold subscribed_to_any. now rewrite Hsubs. }
  split; [|split].
  - exists post. split; [apply in_or_app; right; now left|].
    do 3 (split; [reflexivity|]).
    intros m Hm. unfold Models.send_notifications_to_subscribers in Hm; simpl in Hm.
    destruct (form_categories form); [contradiction|].
    apply in_map_iff in Hm. destruct Hm as (x & <- & _). now split.
  - apply (NoDup_count_occ Nat.eq_dec). intros uid. rewrite Hcount.
    destruct (subscribed_to_any _ _ _); lia.
  - exact Hcount.
Qed.

Lemma one_email_per_subscriber_witness :
  let o := NewsCreate_form_valid Scenario.db_two_categories Scenario.T0
             Scenario.alice Scenario.both_categories in
  Scenario.both_categories.(form_categories) <> []
  /\ subscribed_to_any Scenario.db_two_categories [1%nat; 2%nat] 2%nat = true
  /\ count_occ Nat.eq_dec (map recipient (outbox o)) 2%nat = 1%nat.
Proof.
  intros o.
  assert (Hcats : form_categories Scenario.both_categories <> []) by discriminate.
  split; [exact Hcats|]. split; [reflexivity|].
  destruct (one_email_per_subscriber Scenario.db_two_categories Scenario.T0
              Scenario.alice Scenario.both_categories Scenario.alice_author false
              Scenario.db_two_categories eq_refl Hcats) as (_ & _ & Hcount).
  exact (Hcount 2%nat).
Defined.

(** The post tagged with both categories reaches bob (subscribed to both)
    and carol (subscribed to one) once each. *)
Example two_categories_outbox :
  map recipient
      (outbox (NewsCreate_form_valid Scenario.db_two_categories Scenario.T0
                 Scenario.alice Scenario.both_categories))
  = [2%nat; 3%nat].
Proof. reflexivity. Qed.

End NotificationFacts.

(** ** Account activation *)

Module ActivationFacts.
Import Views.

Section Update.

Context {A : Type}.
Variable key : A -> nat.

Lemma find_after_update (a' : A) (rows : list A) :
  (exists r, In r rows /\ key r = key a') ->
  find (fun r => Nat.eqb (key r) (key a'))
       (map (fun r => if Nat.eqb (key r) (key a') then a' else r) rows)
  = Some a'.
Proof.
  induction rows as [|x l IH]; intros (r & Hin & Hk); [contradiction|].
  simpl. destruct (Nat.eqb (key x) (key a')) eqn:E.
  - now rewrite Nat.eqb_refl.
  - rewrite E. apply IH. destruct Hin as [->|Hin].
    + apply Nat.eqb_neq in E. contradiction.
    + now exists r.
Qed.

End Update.

Lemma lookup_Ok (db : DB.t) (token : string) (a : ActivationToken.t) (u : User.t) :
  lookup db token = Orm.Ok (a, u) ->
  In a (DB.tokens db) /\ In u (DB.users db)
  /\ User.id u = ActivationToken.user a /\ ActivationToken.token a = token.
Proof.
  intros H. apply get_Ok_holds in H. destruct H as [Hin Htok]; simpl in Htok.
  apply String.eqb_eq in Htok.
  unfold tokens_with_user in Hin. apply in_flat_map in Hin.
  destruct Hin as (a0 & Ha0 & Hin). apply in_map_iff in Hin.
  destruct Hin as (u0 & Hpair & Hu0). inversion Hpair; subst a0 u0.
  apply filter_In in Hu0. destruct Hu0 as [Hu Hid]. apply Nat.eqb_eq in Hid.
  auto.
Qed.

(** The four results of the handler, in the order it tests them. *)
Lemma activation_status (writes : list bool) (db : DB.t) (now : Z) (token : string) :
  let o := ActivationView_get writes db now token in
  match lookup db token with
  | Orm.Raise Orm.DoesNotExist => status o = Orm.Ok invalid /\ store_after o = db
  | Orm.Raise e => status o = Orm.Raise e /\ store_after o = db
  | Orm.Ok (a, u) =>
      if Models.is_expired now a then
        status o = Orm.Ok expired /\ store_after o = db
      else if ActivationToken.activated a then
        status o = Orm.Ok already_activated /\ store_after o = db
      else
        status o = Orm.Ok (success (User.username u))
        \/ status o = Orm.Raise Orm.DatabaseError
  end.
Proof.
  unfold ActivationView_get.
  destruct (lookup db token) as [[a u]|[]]; simpl; auto.
  destruct (Models.is_expired now a); simpl; auto.
  destruct (ActivationToken.activated a); simpl; auto.
  unfold ActivationToken_save, User_save.
  destruct (nth 0 writes true); simpl; auto.
  destruct (nth 1 writes true); simpl; auto.
Qed.

(** C5 at a token that was activated and is now older than a day: the
    handler tests expiry first and answers [expired], not
    [already_activated]; store untouched.  Within the validity window the
    same token is answered with [already_activated]. *)
Theorem activated_token_reported_expired :
  let db := Scenario.db_activated in
  lookup db "tok-dave"
  = Orm.Ok (ActivationToken.set_activated true Scenario.dave_token,
            User.set_is_active true Scenario.dave)
  /\ ActivationView_get [] db (Scenario.T0 + 2 * DAY) "tok-dave"
     = mkActivation (Orm.Ok expired) db
  /\ ActivationView_get [] db (Scenario.T0 + 3600) "tok-dave"
     = mkActivation (Orm.Ok already_activated) db
  /\ ActivationView_get [] db (Scenario.T0 + 3600) "no-such-token"
     = mkActivation (Orm.Ok invalid) db.
Proof. repeat split. Qed.

(** C6 as stated fails when the database refuses the second save: the
    token is flagged, the user is still inactive. *)
Lemma second_save_refused_not_atomic :
  ~ both_or_neither [true; false] Scenario.db_pending (Scenario.T0 + 3600)
      Scenario.dave_token.
Proof.
  unfold both_or_neither. vm_compute. intros [[_ H]|[H _]]; discriminate.
Qed.

(** C6 amended: a request that answers [success] found a pending token
    within its validity window and leaves both the token's [activated]
    flag and its user's [is_active] flag set; a request that answers
    [expired], [already_activated] or [invalid] leaves the store as it
    was; and for a pending, non-expired token whose two saves are both
    committed the answer is [success]. *)
Theorem success_sets_both_flags (writes : list bool) (db : DB.t) (now : Z)
  (token : string) :
  let o := ActivationView_get writes db now token in
  match status o with
  | Orm.Ok (success name) =>
      exists a u,
        lookup db token = Orm.Ok (a, u)
        /\ ActivationToken.activated a = false
        /\ Models.is_expired now a = false
        /\ name = User.username u
        /\ token_flag (store_after o) (ActivationToken.id a) = Some true
        /\ user_flag (store_after o) (ActivationToken.user a) = Some true
  | Orm.Ok _ => store_after o = db
  | Orm.Raise _ => True
  end
  /\ forall a u,
       lookup db token = Orm.Ok (a, u) ->
       ActivationToken.activated a = false ->
       Models.is_expired now a = false ->
       nth 0 writes true = true ->
       nth 1 writes true = true ->
       status o = Orm.Ok (success (User.username u)).
Proof.
  intros o. unfold o, ActivationView_get. split.
  - destruct (lookup db token) as [[a u]|[]] eqn:Hl; simpl; auto.
    destruct (Models.is_expired now a) eqn:He; simpl; auto.
    destruct (ActivationToken.activated a) eqn:Hact; simpl; auto.
    unfold ActivationToken_save, User_save.
    destruct (nth 0 writes true); simpl; auto.
    destruct (nth 1 writes true); simpl; auto.
    exists a, u. apply lookup_Ok in Hl. destruct Hl as (Ha & Hu & Hid & _).
    repeat split; auto.
    + unfold token_flag; simpl.
      rewrite (find_after_update ActivationToken.id
                 (ActivationToken.set_activated true a)); [reflexivity|].
      now exists a.
    + unfold user_flag; simpl. rewrite <- Hid.
      rewrite (find_after_update User.id (User.set_is_active true u)); [reflexivity|].
      now exists u.
  - intros a u Hl Hact He H0 H1. rewrite Hl, He, Hact.
    unfold ActivationToken_save, User_save. now rewrite H0, H1.
Qed.

Lemma success_sets_both_flags_witness :
  let o := ActivationView_get [] Scenario.db_pending (Scenario.T0 + 3600) "tok-dave" in
  lookup Scenario.db_pending "tok-dave" = Orm.Ok (Scenario.dave_token, Scenario.dave)
  /\ status o = Orm.Ok (success "dave")
  /\ store_after o = Scenario.db_activated.
Proof.
  intros o. split; [reflexivity|]. split; [|reflexivity].
  exact (proj2 (success_sets_both_flags [] Scenario.db_pending (Scenario.T0 + 3600)
                  "tok-dave")
               Scenario.dave_token Scenario.dave eq_refl eq_refl eq_refl eq_refl eq_refl).
Defined.

End ActivationFacts.

(** ** The admin action *)

Module AdminFacts.
Import Admin.

Section Loop.

Variable send : Post.t -> Dispatch.

(** The loop in closed form, from any state. *)
Lemma loop_closed_form (queryset : list Post.t) :
  forall st,
    fold_left (visit send) queryset st
    = mkState (success_count st + List.length (succeeded send queryset))
              (error_count st + List.length (failed send queryset))
              (messages st ++ flat_map (post_messages send) queryset)
              (log st ++ flat_map (post_log send) queryset)
              (dispatched st ++ filter eligible queryset)
              (mail st ++ flat_map (fun p => sent (send p)) (filter eligible queryset)).
Proof.
  induction queryset as [|p l IH]; intros st.
  - simpl. destruct st; simpl. now rewrite !Nat.add_0_r, !app_nil_r.
  - simpl fold_left. rewrite IH.
    unfold visit, succeeded, failed, eligible, post_messages, post_log. simpl.
    destruct (Post.post_type p); simpl;
      [destruct (Post.categories p); simpl;
       [|destruct (raised (send p)); simpl]|];
      rewrite <- ?app_assoc, <- ?plus_n_Sm; reflexivity.
Qed.

Lemma action_closed_form (queryset : list Post.t) :
  let n := List.length (succeeded send queryset) in
  send_notifications_action send queryset
  = mkState n (List.length (failed send queryset))
            (flat_map (post_messages send) queryset
             ++ if (0 <? n)%nat then [NotificationsSent n] else [])
            (flat_map (post_log send) queryset)
            (filter eligible queryset)
            (flat_map (fun p => sent (send p)) (filter eligible queryset)).
Proof.
  intros n. unfold send_notifications_action. rewrite loop_closed_form. simpl.
  fold n. destruct (0 <? n)%nat; simpl; [reflexivity|now rewrite app_nil_r].
Qed.

Lemma error_message_origin (queryset : list Post.t) (m : Flash) :
  In m (flat_map (post_messages send) queryset) -> level m = ERROR ->
  exists p e, In p (failed send queryset) /\ raised (send p) = Some e
              /\ m = ErrorFor (Post.title p) e.
Proof.
  intros Hin Hlevel. apply in_flat_map in Hin. destruct Hin as (p & Hp & Hm).
  unfold post_messages in Hm.
  destruct (Post.post_type p) eqn:Ht; [destruct (Post.categories p) eqn:Hc|].
  - destruct Hm as [<-|[]]. discriminate.
  - destruct (raised (send p)) as [e|] eqn:Hr; [|contradiction].
    destruct Hm as [<-|[]]. exists p, e. repeat split; auto.
    unfold failed. apply filter_In. rewrite Hr. split; [|reflexivity].
    apply filter_In. split; [assumption|]. unfold eligible. now rewrite Ht, Hc.
  - destruct Hm as [<-|[]]. discriminate.
Qed.

End Loop.

(** C7: whatever the dispatch of a post does, the action calls it exactly
    for the news posts that have a category.  A post that is not NEWS and
    a news post without category each get a WARNING message, are not
    dispatched (the mail handed out comes from the dispatched posts only)
    and are not counted as errors: the error counter is the number of
    dispatched posts whose dispatch raised, and every ERROR message names
    such a post.  A query set of skipped posts only sends nothing and
    counts no error. *)
Theorem skipped_posts_warned (send : Post.t -> Dispatch) (queryset : list Post.t) :
  let st := send_notifications_action send queryset in
  dispatched st = filter eligible queryset
  /\ mail st = flat_map (fun p => sent (send p)) (filter eligible queryset)
  /\ error_count st = List.length (failed send queryset)
  /\ (forall p, In p queryset -> Post.post_type p <> NEWS ->
                In (NotNews (Post.title p)) (messages st)
                /\ level (NotNews (Post.title p)) = WARNING
                /\ ~ In p (dispatched st))
  /\ (forall p, In p queryset -> Post.post_type p = NEWS -> Post.categories p = [] ->
                In (NoCategories (Post.title p)) (messages st)
                /\ level (NoCategories (Post.title p)) = WARNING
                /\ ~ In p (dispatched st))
  /\ (forall m, In m (messages st) -> level m = ERROR ->
                exists p e, In p (failed send queryset) /\ raised (send p) = Some e
                            /\ m = ErrorFor (Post.title p) e)
  /\ ((forall p, In p queryset -> eligible p = false) ->
      mail st = [] /\ error_count st = 0%nat /\ success_count st = 0%nat).
Proof.
  intros st. unfold st. rewrite action_closed_form. simpl.
  split; [reflexivity|]. split; [reflexivity|]. split; [reflexivity|].
  split; [|split; [|split]].
  - intros p Hin Htype. split; [|split; [reflexivity|]].
    + apply in_or_app. left. apply in_flat_map. exists p. split; [assumption|].
      unfold post_messages. destruct (Post.post_type p); [congruence|now left].
    + intros Hd. apply filter_In in Hd. destruct Hd as [_ He].
      unfold eligible in He. destruct (Post.post_type p); [congruence|discriminate].
  - intros p Hin Htype Hcats. split; [|split; [reflexivity|]].
    + apply in_or_app. left. apply in_flat_map. exists p. split; [assumption|].
      unfold post_messages. rewrite Htype, Hcats. now left.
    + intros Hd. apply filter_In in Hd. destruct Hd as [_ He].
      unfold eligible in He. rewrite Htype, Hcats in He. discriminate.
  - intros m Hin Hlevel. apply in_app_or in Hin. destruct Hin as [Hin|Hin].
    + now apply error_message_origin.
    + destruct (0 <? _)%nat; [|contradiction].
      destruct Hin as [<-|[]]. discriminate.
  - intros Hall.
    assert (Hnone : filter eligible queryset = []).
    { clear st. induction queryset as [|p l IH]; [reflexivity|]. simpl.
      rewrite (Hall p) by now left. apply IH. intros q Hq. apply Hall. now right. }
    unfold failed, succeeded. now rewrite Hnone.
Qed.

Lemma skipped_posts_warned_witness :
  let st := send_notifications_action Scenario.flaky_send
              [Scenario.essay; Scenario.untagged] in
  In (NotNews "essay") (messages st)
  /\ In (NoCategories "untagged") (messages st)
  /\ mail st = [] /\ error_count st = 0%nat /\ success_count st = 0%nat.
Proof.
  intros st.
  destruct (skipped_posts_warned Scenario.flaky_send [Scenario.essay; Scenario.untagged])
    as (_ & _ & _ & Harticle & Hnocat & _ & Hall).
  split; [|split].
  - apply (Harticle Scenario.essay); [simpl; auto|discriminate].
  - apply (Hnocat Scenario.untagged); [simpl; auto|reflexivity|reflexivity].
  - apply Hall. intros p [<-|[<-|[]]]; reflexivity.
Defined.

(** C8 as stated fails: after one successful and two failed dispatches no
    message shows the failure count (and with no success none would show
    the success count either). *)
Lemma failure_count_not_reported :
  let st := send_notifications_action Scenario.flaky_send
              [Scenario.budget; Scenario.boom 12; Scenario.boom 13] in
  success_count st = 1%nat /\ error_count st = 2%nat
  /\ messages st = [ErrorFor "boom" "SMTPException"; ErrorFor "boom" "SMTPException";
                    NotificationsSent 1]
  /\ ~ reports_aggregate_counts st.
Proof.
  intros st. repeat split.
  intros [_ (m & Hin & Hk)].
  destruct Hin as [<-|[<-|[<-|[]]]]; simpl in Hk; intuition discriminate.
Qed.

(** C8 amended: every news post with a category is dispatched, whatever
    the dispatches before it did; the counters are the numbers of
    dispatches that returned and that raised; each dispatch that raised is
    logged at ERROR and shown to the actor as an ERROR message of its own;
    the success count is shown to the actor exactly when it is positive. *)
Theorem failed_dispatch_does_not_abort (send : Post.t -> Dispatch)
  (queryset : list Post.t) :
  let st := send_notifications_action send queryset in
  dispatched st = filter eligible queryset
  /\ success_count st = List.length (succeeded send queryset)
  /\ error_count st = List.length (failed send queryset)
  /\ (forall p e, In p queryset -> eligible p = true -> raised (send p) = Some e ->
                  In (LogSendError (Post.title p) e) (log st)
                  /\ log_level (LogSendError (Post.title p) e) = ERROR
                  /\ In (ErrorFor (Post.title p) e) (messages st))
  /\ (reports_count (success_count st) st <-> (0 < success_count st)%nat).
Proof.
  intros st. unfold st, reports_count. rewrite action_closed_form. simpl.
  split; [reflexivity|]. split; [reflexivity|]. split; [reflexivity|]. split.
  - intros p e Hin He Hr. unfold eligible in He. apply andb_true_iff in He.
    destruct He as [Ht Hc].
    split; [|split; [reflexivity|]].
    + apply in_flat_map. exists p. split; [assumption|]. unfold post_log.
      destruct (Post.post_type p); [|discriminate].
      destruct (Post.categories p); [discriminate|]. rewrite Hr. now left.
    + apply in_or_app. left. apply in_flat_map. exists p. split; [assumption|].
      unfold post_messages.
      destruct (Post.post_type p); [|discriminate].
      destruct (Post.categories p); [discriminate|]. rewrite Hr. now left.
  - set (n := List.length (succeeded send queryset)). split.
    + intros (m & Hin & Hk). apply in_app_or in Hin. destruct Hin as [Hin|Hin].
      * apply in_flat_map in Hin. destruct Hin as (p & _ & Hm).
        unfold post_messages in Hm.
        destruct (Post.post_type p); [destruct (Post.categories p)|];
          [| destruct (raised (send p)) |];
          simpl in Hm; try contradiction; destruct Hm as [<-|[]]; contradiction.
      * destruct (0 <? n)%nat eqn:E; [now apply Nat.ltb_lt|contradiction].
    + intros Hpos. exists (NotificationsSent n). split; [|now left].
      apply in_or_app. right. apply Nat.ltb_lt in Hpos. rewrite Hpos. now left.
Qed.

Lemma failed_dispatch_does_not_abort_witness :
  let st := send_notifications_action Scenario.flaky_send
              [Scenario.boom 12; Scenario.budget] in
  In Scenario.budget (dispatched st)
  /\ In (LogSendError "boom" "SMTPException") (log st)
  /\ In (ErrorFor "boom" "SMTPException") (messages st)
  /\ reports_count 1 st.
Proof.
  intros st.
  destruct (failed_dispatch_does_not_abort Scenario.flaky_send
              [Scenario.boom 12; Scenario.budget])
    as (Hd & Hs & _ & Hfail & Hreport).
  split; [|split; [|split]].
  - fold st in Hd. rewrite Hd. simpl; auto.
  - apply (Hfail (Scenario.boom 12) "SMTPException"); [simpl; auto|reflexivity|reflexivity].
  - apply (Hfail (Scenario.boom 12) "SMTPException"); [simpl; auto|reflexivity|reflexivity].
  - apply Hreport. simpl. lia.
Defined.

End AdminFacts.

(** ** Ownership check on update and delete *)

Module OwnershipFacts.
Import Views.

(** The test of [OwnerRequiredMixin] passes exactly for the user of the
    post's author and for staff. *)
Lemma test_func_iff (obj : Post.t) (ru : RequestUser) :
  OwnerRequiredMixin_test_func obj ru = true
  <-> same_user (Author.user (Post.author obj)) ru = true \/ is_staff ru = true.
Proof. unfold OwnerRequiredMixin_test_func. apply orb_true_iff. Qed.

(** What a delete view answers depends on the requester's permission and
    group only: whoever holds the permission and is in the authors group
    deletes the post of the view's type with the given key, whoever its
    author is. *)
Lemma delete_view_ignores_owner (kind : PostType) (db : DB.t) (u : User.t) (pk : nat)
  (obj : Post.t) :
  has_perm "news.delete_post" (Authenticated u) = true ->
  in_group "authors" (Authenticated u) = true ->
  Orm.get (fun p => post_with_id pk p && PostType_eqb (Post.post_type p) kind)
          (DB.posts db) = Orm.Ok obj ->
  DeleteView_post kind db (Authenticated u) pk = delete_object db obj.
Proof.
  intros Hperm Hgroup Hobj.
  unfold DeleteView_post, AuthorRequiredMixin_test_func, UserPassesTestMixin_dispatch,
    Models.AuthRequiredMixin_allows.
  rewrite Hperm, Hgroup, Hobj. reflexivity.
Qed.

(** C10 at a delete request by another author: erin is in the authors
    group and holds the delete permission, is not staff and is not the
    user of the author of post 1 (alice's), so the test of
    [OwnerRequiredMixin] would refuse her; the view consults the test of
    [AuthorRequiredMixin] instead, and the post is deleted.  The staff
    exemption written into the ownership test is not consulted either:
    carol, staff without the permission, is turned away with the message
    of the permission check. *)
Theorem ownership_never_consulted :
  let db := Scenario.db_three_news in
  let post := Scenario.news 1 Scenario.T0 in
  same_user (Author.user (Post.author post)) (Authenticated Scenario.erin) = false
  /\ is_staff (Authenticated Scenario.erin) = false
  /\ OwnerRequiredMixin_test_func post (Authenticated Scenario.erin) = false
  /\ NewsDelete_post db (Authenticated Scenario.erin) 1 = delete_object db post
  /\ DB.posts (store (NewsDelete_post db (Authenticated Scenario.erin) 1))
     = [Scenario.news 2 (Scenario.T0 + 10); Scenario.news 3 (Scenario.T0 + 20)]
  /\ OwnerRequiredMixin_test_func post (Authenticated Scenario.carol) = true
  /\ NewsDelete_post db (Authenticated Scenario.carol) 1
     = handle_no_permission InsufficientRights db.
Proof. repeat split. Qed.

(** The owner's own request goes through, and a visitor without the
    permission is turned away with the store untouched. *)
Example owner_deletes :
  let db := Scenario.db_three_news in
  DB.posts (store (NewsDelete_post db (Authenticated Scenario.alice) 1))
  = [Scenario.news 2 (Scenario.T0 + 10); Scenario.news 3 (Scenario.T0 + 20)]
  /\ NewsDelete_post db (Authenticated Scenario.bob) 1
     = handle_no_permission InsufficientRights db.
Proof. split; reflexivity. Qed.

End OwnershipFacts.

(** * Further properties of the handlers *)

(** ** Subscribing and unsubscribing *)

Module SubscriptionExtras.
Import Views Pages SubscriptionFacts.

Lemma category_found_id (db : DB.t) (category_id : nat) (category : Category.t) :
  Orm.get (category_with_id category_id) (DB.categories db) = Orm.Ok category ->
  Category.id category = category_id.
Proof.
  intros H. apply get_Ok_holds in H. destruct H as [_ H].
  now apply Nat.eqb_eq in H.
Qed.

(** X1: Both handlers keep the invariant "at most one row per (user,
    category)", whoever asks and whatever category id is given. *)
Theorem handlers_keep_one_row_per_pair (db : DB.t) (now : Z) (ru : RequestUser)
  (category_id : nat) :
  at_most_one_row_per_pair db ->
  at_most_one_row_per_pair (store (subscribe_to_category db now ru category_id))
  /\ at_most_one_row_per_pair (store (unsubscribe_from_category db ru category_id)).
Proof.
  intros Hinv. split.
  - unfold subscribe_to_category. destruct ru as [|u]; [exact Hinv|].
    destruct (Orm.get _ (DB.categories db)) as [c|[]]; try exact Hinv.
    destruct (Subscription_get_or_create db now (User.id u) (Category.id c))
      as [[[s created] db1]|e] eqn:Hg; [|exact Hinv].
    simpl. exact (get_or_create_keeps_invariant db now _ _ s created db1 Hinv Hg).
  - unfold unsubscribe_from_category. destruct ru as [|u]; [exact Hinv|].
    destruct (Orm.get _ (DB.categories db)) as [c|[]]; try exact Hinv.
    pose proof (delete_keeps_invariant db (User.id u) (Category.id c) Hinv) as Hd.
    destruct (Subscription_delete db (User.id u) (Category.id c)) as [n db']; exact Hd.
Qed.

Lemma handlers_keep_one_row_per_pair_witness :
  at_most_one_row_per_pair Scenario.db0
  /\ at_most_one_row_per_pair
       (store (subscribe_to_category Scenario.db0 Scenario.T0
                 (Authenticated Scenario.alice) 2)).
Proof.
  split; [exact db0_at_most_one_row_per_pair|].
  exact (proj1 (handlers_keep_one_row_per_pair Scenario.db0 Scenario.T0
                  (Authenticated Scenario.alice) 2 db0_at_most_one_row_per_pair)).
Defined.

(** X2: Round trip: for a user who holds no subscription to the category,
    subscribing and then unsubscribing gives back the store as it was; the
    first answer is the success message, the second the "removed" one. *)
Theorem subscribe_then_unsubscribe (db : DB.t) (now : Z) (u : User.t)
  (category_id : nat) (category : Category.t) :
  Orm.get (category_with_id category_id) (DB.categories db) = Orm.Ok category ->
  rows_for (User.id u) category_id db = 0%nat ->
  let first := subscribe_to_category db now (Authenticated u) category_id in
  let second := unsubscribe_from_category (store first) (Authenticated u) category_id in
  flashes first = [Subscribed (Category.name category)]
  /\ flashes second = [Unsubscribed (Category.name category)]
  /\ store second = db.
Proof.
  intros Hc H0 first second.
  destruct (get_or_create_fresh db now (User.id u) category_id H0) as [Hg Hrows].
  assert (Hfirst : first = mkOutcome (Redirect "category_posts" (Some category_id))
                             [Subscribed (Category.name category)]
                             (DB.with_subscriptions
                                (DB.subscriptions db
                                 ++ [Subscription.mk (Orm.next_id Subscription.id
                                                        (DB.subscriptions db))
                                       (User.id u) category_id now]) db) []).
  { unfold first.
    now rewrite (subscribe_to_category_flash db now u category_id category _ true _ Hc Hg). }
  split; [now rewrite Hfirst|].
  unfold second. rewrite Hfirst. simpl store.
  unfold unsubscribe_from_category. simpl DB.categories. rewrite Hc.
  rewrite (category_found_id _ _ _ Hc).
  unfold Subscription_delete, Orm.delete. simpl DB.subscriptions.
  unfold rows_for, Orm.count in H0. apply length_zero_iff_nil in H0.
  rewrite !filter_app, H0, (filter_none_id _ _ H0). simpl.
  rewrite subscription_of_new. simpl. rewrite app_nil_r.
  split; [reflexivity|]. now destruct db.
Qed.

Lemma subscribe_then_unsubscribe_witness :
  rows_for 1 2 Scenario.db0 = 0%nat
  /\ store (unsubscribe_from_category
              (store (subscribe_to_category Scenario.db0 Scenario.T0
                        (Authenticated Scenario.alice) 2))
              (Authenticated Scenario.alice) 2)
     = Scenario.db0.
Proof.
  split; [reflexivity|].
  exact (proj2 (proj2 (subscribe_then_unsubscribe Scenario.db0 Scenario.T0 Scenario.alice
                         2 Scenario.sport eq_refl eq_refl))).
Defined.

(** X3: With two or more rows already stored for the pair, subscribing fails
    on [MultipleObjectsReturned] and changes nothing; unsubscribing
    removes them all and reports their number, after which subscribing
    works again and leaves exactly one row. *)
Theorem duplicate_rows (db : DB.t) (now : Z) (u : User.t)
  (category_id : nat) (category : Category.t) :
  Orm.get (category_with_id category_id) (DB.categories db) = Orm.Ok category ->
  (2 <= rows_for (User.id u) category_id db)%nat ->
  subscribe_to_category db now (Authenticated u) category_id
  = mkOutcome (ServerError Orm.MultipleObjectsReturned) [] db []
  /\ let cleaned := unsubscribe_from_category db (Authenticated u) category_id in
     flashes cleaned = [Unsubscribed (Category.name category)]
     /\ rows_for (User.id u) category_id (store cleaned) = 0%nat
     /\ let again := subscribe_to_category (store cleaned) now (Authenticated u)
                       category_id in
        flashes again = [Subscribed (Category.name category)]
        /\ rows_for (User.id u) category_id (store again) = 1%nat.
Proof.
  intros Hc H2. pose proof (category_found_id _ _ _ Hc) as Hid.
  split.
  - unfold subscribe_to_category. rewrite Hc, Hid.
    unfold Subscription_get_or_create, Orm.get.
    unfold rows_for, Orm.count in H2.
    destruct (filter _ (DB.subscriptions db)) as [|x [|y l]]; simpl in H2; try lia.
    reflexivity.
  - set (db' := snd (Subscription_delete db (User.id u) category_id)).
    assert (Hclean : unsubscribe_from_category db (Authenticated u) category_id
                     = mkOutcome (Redirect "category_posts" (Some category_id))
                         [Unsubscribed (Category.name category)] db' []).
    { unfold db', unsubscribe_from_category. rewrite Hc, Hid.
      unfold Subscription_delete, Orm.delete. simpl.
      unfold rows_for, Orm.count in H2.
      destruct (List.length _) as [|n] eqn:E; [lia|]. reflexivity. }
    cbv zeta. rewrite Hclean. cbn [flashes store].
    assert (H0 : rows_for (User.id u) category_id db' = 0%nat).
    { unfold db', rows_for, Orm.count, Subscription_delete, Orm.delete. simpl.
      now rewrite filter_negb_none. }
    assert (Hc' : Orm.get (category_with_id category_id) (DB.categories db')
                  = Orm.Ok category) by exact Hc.
    split; [reflexivity|]. split; [exact H0|].
    destruct (get_or_create_fresh db' now (User.id u) category_id H0) as [Hg Hrows].
    rewrite (subscribe_to_category_flash db' now u category_id category _ true _ Hc' Hg).
    split; [reflexivity|]. cbn [store]. unfold rows_for, Orm.count.
    now rewrite Hrows.
Qed.

Lemma duplicate_rows_witness :
  let db := DB.with_subscriptions
              [Subscription.mk 1 2 2 Scenario.T0; Subscription.mk 2 2 2 Scenario.T0]
              Scenario.db0 in
  (2 <= rows_for 2 2 db)%nat
  /\ subscribe_to_category db Scenario.T0 (Authenticated Scenario.bob) 2
     = mkOutcome (ServerError Orm.MultipleObjectsReturned) [] db [].
Proof.
  intros db.
  assert (H2 : (2 <= rows_for 2 2 db)%nat) by (vm_compute; lia).
  split; [exact H2|].
  exact (proj1 (duplicate_rows db Scenario.T0 Scenario.bob 2 Scenario.sport eq_refl H2)).
Defined.

Lemma filter_app_one {A : Type} (p : A -> bool) (rows : list A) (x : A) :
  p x = false -> filter p (rows ++ [x]) = filter p rows.
Proof. intros H. rewrite filter_app; simpl. rewrite H. apply app_nil_r. Qed.

Lemma filter_filter_other {A : Type} (p q : A -> bool) (rows : list A) :
  (forall x, p x = true -> q x = false) ->
  filter p (filter (fun r => negb (q r)) rows) = filter p rows.
Proof.
  intros H. induction rows as [|x l IH]; simpl; [reflexivity|].
  destruct (q x) eqn:Eq; simpl.
  - destruct (p x) eqn:Ep; [|assumption].
    apply H in Ep. congruence.
  - now rewrite IH.
Qed.

Lemma subscription_of_other (uid cid uid' cid' : nat) (s : Subscription.t) :
  uid' <> uid \/ cid' <> cid ->
  subscription_of uid' cid' s = true -> subscription_of uid cid s = false.
Proof.
  unfold subscription_of. intros Hne H. apply andb_true_iff in H.
  destruct H as [Hu Hc]. apply Nat.eqb_eq in Hu, Hc. subst uid' cid'.
  apply andb_false_iff. destruct Hne as [Hne|Hne]; [left|right];
    apply Nat.eqb_neq; congruence.
Qed.

(** X4: Neither handler touches anything but the rows of the requester for
    the category asked: every other table is kept, and so are the rows of
    every other pair. *)
Theorem handlers_touch_one_pair (db : DB.t) (now : Z) (u : User.t) (category_id : nat)
  (o : Outcome) :
  o = subscribe_to_category db now (Authenticated u) category_id
  \/ o = unsubscribe_from_category db (Authenticated u) category_id ->
  DB.users (store o) = DB.users db
  /\ DB.authors (store o) = DB.authors db
  /\ DB.categories (store o) = DB.categories db
  /\ DB.posts (store o) = DB.posts db
  /\ DB.tokens (store o) = DB.tokens db
  /\ outbox o = []
  /\ forall uid' cid',
       uid' <> User.id u \/ cid' <> category_id ->
       filter (subscription_of uid' cid') (DB.subscriptions (store o))
       = filter (subscription_of uid' cid') (DB.subscriptions db).
Proof.
  intros [->| ->].
  - unfold subscribe_to_category.
    destruct (Orm.get _ (DB.categories db)) as [c|[]] eqn:Hc;
      try (simpl; repeat split; reflexivity).
    rewrite (category_found_id _ _ _ Hc).
    unfold Subscription_get_or_create.
    destruct (Orm.get _ (DB.subscriptions db)) as [s|[]];
      try (simpl; repeat split; reflexivity).
    simpl. repeat (split; [reflexivity|]).
    intros uid' cid' Hne. apply filter_app_one.
    destruct (subscription_of uid' cid' _) eqn:E; [|reflexivity].
    apply (subscription_of_other (User.id u) category_id) in E; [|assumption].
    now rewrite subscription_of_new in E.
  - unfold unsubscribe_from_category.
    destruct (Orm.get _ (DB.categories db)) as [c|[]] eqn:Hc;
      try (simpl; repeat split; reflexivity).
    rewrite (category_found_id _ _ _ Hc).
    unfold Subscription_delete, Orm.delete. simpl.
    repeat (split; [reflexivity|]).
    intros uid' cid' Hne. apply filter_filter_other.
    intros s. now apply subscription_of_other.
Qed.

Lemma handlers_touch_one_pair_witness :
  filter (subscription_of 2 2)
         (DB.subscriptions
            (store (subscribe_to_category Scenario.db0 Scenario.T0
                      (Authenticated Scenario.alice) 2)))
  = filter (subscription_of 2 2) (DB.subscriptions Scenario.db0).
Proof.
  destruct (handlers_touch_one_pair Scenario.db0 Scenario.T0 Scenario.alice 2 _
              (or_introl eq_refl)) as (_ & _ & _ & _ & _ & _ & H).
  apply H. left. simpl. lia.
Defined.

End SubscriptionExtras.

(** ** Pages that show subscriptions and similar posts *)

Module PageFacts.
Import Views Pages SubscriptionFacts SubscriptionExtras.

Lemma exists_iff_rows (uid cid : nat) (db : DB.t) :
  Orm.exists_ (subscription_of uid cid) (DB.subscriptions db) = (0 <? rows_for uid cid db)%nat.
Proof.
  unfold Orm.exists_, rows_for, Orm.count.
  induction (DB.subscriptions db) as [|s l IH]; simpl; [reflexivity|].
  destruct (subscription_of uid cid s); simpl; [reflexivity|exact IH].
Qed.

(** X5: The category page tells the visitor whether they are subscribed: yes
    right after subscribing, no right after unsubscribing, and never for
    an anonymous visitor. *)
Theorem is_subscribed_follows_handlers (db : DB.t) (now : Z) (u : User.t)
  (category_id : nat) (category : Category.t) :
  Orm.get (category_with_id category_id) (DB.categories db) = Orm.Ok category ->
  (rows_for (User.id u) category_id db <= 1)%nat ->
  let ru := Authenticated u in
  category_posts (store (subscribe_to_category db now ru category_id)) ru category_id
  = Page (mkCategoryContext category true)
  /\ category_posts (store (unsubscribe_from_category db ru category_id)) ru category_id
     = Page (mkCategoryContext category false)
  /\ category_posts db AnonymousUser category_id
     = Page (mkCategoryContext category false).
Proof.
  intros Hc Hle ru. pose proof (category_found_id _ _ _ Hc) as Hid.
  split; [|split].
  - destruct (get_or_create_twice db now now (User.id u) category_id Hle)
      as (s & created & db1 & Hg & _ & _ & Hrows & Hcats).
    unfold ru.
    rewrite (subscribe_to_category_flash db now u category_id category s created db1 Hc Hg).
    cbn [store]. unfold category_posts. rewrite Hcats, Hc, Hid.
    now rewrite exists_iff_rows, Hrows.
  - unfold ru, unsubscribe_from_category. rewrite Hc, Hid.
    unfold Subscription_delete, Orm.delete. cbn [store].
    unfold category_posts; simpl. rewrite Hc, Hid.
    unfold Orm.exists_.
    assert (H : filter (subscription_of (User.id u) category_id)
                  (filter (fun r => negb (subscription_of (User.id u) category_id r))
                          (DB.subscriptions db)) = []) by apply filter_negb_none.
    destruct (existsb _ _) eqn:E; [|reflexivity].
    apply existsb_exists in E. destruct E as (x & Hin & Hx).
    assert (Hf : In x []) by (rewrite <- H; apply filter_In; now split).
    contradiction.
  - unfold category_posts. now rewrite Hc.
Qed.

Lemma is_subscribed_follows_handlers_witness :
  let ru := Authenticated Scenario.alice in
  (rows_for 1 2 Scenario.db0 <= 1)%nat
  /\ category_posts Scenario.db0 ru 2 = Page (mkCategoryContext Scenario.sport false)
  /\ category_posts (store (subscribe_to_category Scenario.db0 Scenario.T0 ru 2)) ru 2
     = Page (mkCategoryContext Scenario.sport true).
Proof.
  intros ru.
  assert (Hle : (rows_for 1 2 Scenario.db0 <= 1)%nat) by (vm_compute; lia).
  split; [exact Hle|]. split; [reflexivity|].
  exact (proj1 (is_subscribed_follows_handlers Scenario.db0 Scenario.T0 Scenario.alice 2
                  Scenario.sport eq_refl Hle)).
Defined.

Lemma filter_split_length {A : Type} (p q : A -> bool) (rows : list A) :
  (forall x, p x = true -> q x = true) ->
  (List.length (filter q (filter (fun r => negb (p r)) rows))
   + List.length (filter p rows)
   = List.length (filter q rows))%nat.
Proof.
  intros Himp. induction rows as [|x l IH]; simpl; [reflexivity|].
  destruct (p x) eqn:Ep; simpl.
  - rewrite (Himp x Ep). simpl. lia.
  - destruct (q x); simpl; lia.
Qed.

(** X6: The number shown on "my subscriptions" goes up by one when a
    subscription is created, stays when the user was subscribed already,
    and goes down by the deleted count on unsubscribing. *)
Theorem total_subscriptions_follows_handlers (db : DB.t) (now : Z) (u : User.t)
  (category_id : nat) (category : Category.t) :
  Orm.get (category_with_id category_id) (DB.categories db) = Orm.Ok category ->
  (rows_for (User.id u) category_id db <= 1)%nat ->
  let ru := Authenticated u in
  let total d := List.length (subscriptions_of d (User.id u)) in
  my_subscriptions db ru
  = Page (mkSubscriptionsContext (subscriptions_of db (User.id u)) (total db))
  /\ total (store (subscribe_to_category db now ru category_id))
     = (total db + (1 - rows_for (User.id u) category_id db))%nat
  /\ (total (store (unsubscribe_from_category db ru category_id))
      + rows_for (User.id u) category_id db = total db)%nat.
Proof.
  intros Hc Hle ru total. pose proof (category_found_id _ _ _ Hc) as Hid.
  split; [reflexivity|]. split.
  - unfold ru, total, subscribe_to_category. rewrite Hc, Hid.
    unfold Subscription_get_or_create, Orm.get, rows_for, Orm.count in *.
    destruct (filter (subscription_of (User.id u) category_id) (DB.subscriptions db))
      as [|x [|y l]] eqn:Hf; simpl in Hle; try lia; simpl.
    + unfold subscriptions_of; simpl. rewrite filter_app, length_app; simpl.
      now rewrite Nat.eqb_refl.
    + lia.
  - unfold ru, total, unsubscribe_from_category. rewrite Hc, Hid.
    unfold Subscription_delete, Orm.delete, subscriptions_of, rows_for, Orm.count.
    cbn [store DB.subscriptions DB.with_subscriptions].
    apply filter_split_length.
    intros s Hs. unfold subscription_of in Hs. now apply andb_true_iff in Hs.
Qed.

Lemma total_subscriptions_follows_handlers_witness :
  let ru := Authenticated Scenario.bob in
  (rows_for 2 2 Scenario.db0 <= 1)%nat
  /\ (List.length (subscriptions_of (store (unsubscribe_from_category Scenario.db0 ru 2)) 2)
      + rows_for 2 2 Scenario.db0
      = List.length (subscriptions_of Scenario.db0 2))%nat.
Proof.
  intros ru.
  assert (Hle : (rows_for 2 2 Scenario.db0 <= 1)%nat) by (vm_compute; lia).
  split; [exact Hle|].
  exact (proj2 (proj2 (total_subscriptions_follows_handlers Scenario.db0 Scenario.T0
                         Scenario.bob 2 Scenario.sport eq_refl Hle))).
Defined.

(** X7: The news page and the category page agree: a category is listed on
    the news page as subscribed exactly when it is a category of the post
    and the category page says the visitor is subscribed. *)
Theorem detail_agrees_with_category_page (db : DB.t) (u : User.t) (pk : nat)
  (ctx : DetailContext) (c : nat) (category : Category.t) :
  NewsDetail db (Authenticated u) pk = Page ctx ->
  Orm.get (category_with_id c) (DB.categories db) = Orm.Ok category ->
  exists listed,
    subscribed_categories ctx = Some listed
    /\ (In c listed <->
        In c (Post.categories (news ctx))
        /\ category_posts db (Authenticated u) c
           = Page (mkCategoryContext category true)).
Proof.
  intros Hpage Hc. unfold NewsDetail in Hpage.
  destruct (Orm.get _ (DB.posts db)) as [obj|[]]; try discriminate.
  inversion Hpage; subst ctx; clear Hpage. cbn [subscribed_categories news].
  eexists. split; [reflexivity|].
  unfold category_posts. rewrite Hc, (category_found_id _ _ _ Hc).
  unfold user_subscribed_categories, Orm.exists_.
  rewrite in_map_iff. split.
  - intros (s & Hs & Hin). apply filter_In in Hin. destruct Hin as [Hin Hp].
    apply andb_true_iff in Hp. destruct Hp as [Hu Hcat]. subst c.
    apply existsb_exists in Hcat. destruct Hcat as (c' & Hc' & Heq).
    apply Nat.eqb_eq in Heq. subst c'. split; [assumption|].
    assert (E : existsb (subscription_of (User.id u) (Subscription.category s))
                        (DB.subscriptions db) = true).
    { apply existsb_exists. exists s. split; [assumption|].
      unfold subscription_of. now rewrite Hu, Nat.eqb_refl. }
    now rewrite E.
  - intros [Hcat Hpg].
    destruct (existsb _ _) eqn:E; [|discriminate].
    apply existsb_exists in E. destruct E as (s & Hin & Hs).
    unfold subscription_of in Hs. apply andb_true_iff in Hs. destruct Hs as [Hu Hsc].
    exists s. apply Nat.eqb_eq in Hsc. split; [assumption|].
    apply filter_In. split; [assumption|]. rewrite Hu; simpl.
    apply existsb_exists. exists c. split; [assumption|]. apply Nat.eqb_eq. congruence.
Qed.

Lemma detail_agrees_with_category_page_witness :
  let db := DB.with_posts [Scenario.budget] Scenario.db_two_categories in
  exists listed,
    subscribed_categories
      (mkDetailContext Scenario.budget
         (Some (user_subscribed_categories db 3 Scenario.budget))
         (similar_posts db Scenario.budget)) = Some listed
    /\ (In 2%nat listed <->
        In 2%nat (Post.categories Scenario.budget)
        /\ category_posts db (Authenticated Scenario.carol) 2
           = Page (mkCategoryContext Scenario.sport true)).
Proof.
  intros db.
  exact (detail_agrees_with_category_page db Scenario.carol 10 _ 2 Scenario.sport
           eq_refl eq_refl).
Defined.

Lemma in_firstn {A : Type} (n : nat) (l : list A) (x : A) :
  In x (firstn n l) -> In x l.
Proof.
  intros H. rewrite <- (firstn_skipn n l). apply in_or_app. now left.
Qed.

(** X8: Similar posts: at most five, never the post itself, each a stored
    news post that has a category in common with it; a post without
    categories has none; and the page of an article key does not exist. *)
Theorem similar_posts_sound (db : DB.t) (obj : Post.t) :
  (List.length (similar_posts db obj) <= 5)%nat
  /\ (forall p, In p (similar_posts db obj) ->
        In p (DB.posts db)
        /\ Post.post_type p = NEWS
        /\ Post.id p <> Post.id obj
        /\ exists c, In c (Post.categories p) /\ In c (Post.categories obj))
  /\ (Post.categories obj = [] -> similar_posts db obj = [])
  /\ (forall ru, In obj (DB.posts db) -> Post.post_type obj = ARTICLE ->
        (forall p, In p (DB.posts db) -> Post.id p = Post.id obj -> p = obj) ->
        NewsDetail db ru (Post.id obj) = NotFound).
Proof.
  split; [apply firstn_le_length|]. split; [|split].
  - intros p Hin. apply in_firstn in Hin. apply filter_In in Hin.
    destruct Hin as [Hin Hp]. apply andb_true_iff in Hp. destruct Hp as [Hp Hne].
    apply andb_true_iff in Hp. destruct Hp as [Hshare Hnews].
    split; [assumption|]. split; [|split].
    + now destruct (Post.post_type p).
    + unfold post_with_id in Hne. apply negb_true_iff, Nat.eqb_neq in Hne. assumption.
    + unfold shares_category in Hshare. apply existsb_exists in Hshare.
      destruct Hshare as (c & Hc & Hin'). apply existsb_exists in Hin'.
      destruct Hin' as (c' & Hc' & Heq). apply Nat.eqb_eq in Heq. subst c'.
      now exists c.
  - intros Hnone. unfold similar_posts.
    assert (Hshare : forall p, shares_category obj p = false).
    { intros p. unfold shares_category. rewrite Hnone.
      induction (Post.categories p); simpl; auto. }
    replace (filter _ (DB.posts db)) with (@nil Post.t); [reflexivity|].
    symmetry. induction (DB.posts db) as [|p l IH]; simpl; [reflexivity|].
    now rewrite Hshare.
  - intros ru Hin Hart Huniq. unfold NewsDetail, Orm.get.
    replace (filter _ (DB.posts db)) with (@nil Post.t); [reflexivity|].
    symmetry. clear Hin.
    induction (DB.posts db) as [|p l IH]; simpl; [reflexivity|].
    destruct (_ && _) eqn:E.
    + apply andb_true_iff in E. destruct E as [Hid Hnews].
      apply Nat.eqb_eq in Hid. rewrite (Huniq p (or_introl eq_refl) Hid) in Hnews.
      rewrite Hart in Hnews. discriminate.
    + apply IH. intros q Hq. apply Huniq. now right.
Qed.

Lemma similar_posts_sound_witness :
  similar_posts Scenario.db_three_news (Scenario.news 1 Scenario.T0)
  = [Scenario.news 2 (Scenario.T0 + 10); Scenario.news 3 (Scenario.T0 + 20)]
  /\ Post.id (Scenario.news 2 (Scenario.T0 + 10)) <> Post.id (Scenario.news 1 Scenario.T0).
Proof.
  split; [reflexivity|].
  destruct (similar_posts_sound Scenario.db_three_news (Scenario.news 1 Scenario.T0))
    as (_ & H & _).
  apply (H (Scenario.news 2 (Scenario.T0 + 10))). simpl. auto.
Defined.

End PageFacts.

(** ** The author's day and the dashboard *)

Module DashboardFacts.
Import Views Pages.

Lemma today_start_bounds (now : Z) :
  today_start now <= now - MOSCOW_UTC_OFFSET
  /\ now - (DAY + MOSCOW_UTC_OFFSET) < today_start now.
Proof.
  unfold today_start, date_of_now, DAY, MOSCOW_UTC_OFFSET.
  pose proof (Z.div_mod now 86400 ltac:(lia)).
  pose proof (Z.mod_pos_bound now 86400 ltac:(lia)). lia.
Qed.




(** X10: For an author with a profile the dashboard renders three numbers:
    today's posts never exceed all posts, and the remaining limit lies
    between 0 and 3, is 3 minus today's posts while that is not negative,
    and is 0 from three posts on. *)
Theorem dashboard_numbers (db : DB.t) (now : Z) (u : User.t) (a : Author.t) :
  in_group "authors" (Authenticated u) = true ->
  author_of db u = Orm.Ok a ->
  exists today total left,
    author_dashboard db now (Authenticated u)
    = mkOutcome (Render "news/author_dashboard.html"
                   [("posts_today", today); ("total_posts", total);
                    ("news_limit_remaining", left)]) [] db []
    /\ 0 <= today <= total
    /\ 0 <= left <= 3
    /\ (today <= 3 -> today + left = 3)
    /\ (3 <= today -> left = 0).
Proof.
  intros Hg Ha. exists (posts_today db now a), (total_posts db a),
    (Z.max 0 (3 - posts_today db now a)).
  split.
  - unfold author_dashboard. now rewrite Hg, Ha.
  - assert (H : 0 <= posts_today db now a <= total_posts db a).
    { unfold posts_today, total_posts, Orm.count. split; [lia|]. apply inj_le.
      induction (DB.posts db) as [|p l IH]; simpl; [lia|].
      destruct (Nat.eqb _ _); simpl; [|exact IH].
      destruct (_ <=? _); simpl; lia. }
    lia.
Qed.

Lemma dashboard_numbers_witness :
  exists today total left,
    author_dashboard Scenario.db_three_news (Scenario.T0 + 60) (Authenticated Scenario.alice)
    = mkOutcome (Render "news/author_dashboard.html"
                   [("posts_today", today); ("total_posts", total);
                    ("news_limit_remaining", left)]) [] Scenario.db_three_news []
    /\ 0 <= today <= total
    /\ 0 <= left <= 3
    /\ (today <= 3 -> today + left = 3)
    /\ (3 <= today -> left = 0).
Proof.
  exact (dashboard_numbers Scenario.db_three_news (Scenario.T0 + 60) Scenario.alice
           Scenario.alice_author eq_refl eq_refl).
Defined.

(** A visitor who is not in the authors group gets no dashboard: the
    answer is the error message and the redirect to the news list, also
    for staff and also when an author profile exists. *)
Lemma dashboard_for_authors_only (db : DB.t) (now : Z) (u : User.t) :
  in_group "authors" (Authenticated u) = false ->
  author_dashboard db now (Authenticated u)
  = mkOutcome (Redirect "news_list" None) [AuthorsOnly] db [].
Proof. intros H. unfold author_dashboard. now rewrite H. Qed.

Lemma next_id_above {A : Type} (key : A -> nat) (rows : list A) (x : A) :
  In x rows -> (key x < Orm.next_id key rows)%nat.
Proof.
  unfold Orm.next_id. induction rows as [|y l IH]; simpl; [contradiction|].
  intros [->|Hin]; [lia|]. specialize (IH Hin). lia.
Qed.

Lemma author_found_again (db : DB.t) (u : User.t) (a : Author.t) :
  author_of db u = Orm.Ok a ->
  Author_get_or_create db u = Orm.Ok (a, false, db).
Proof. intros H. unfold Author_get_or_create. now rewrite H. Qed.

Lemma posts_today_after_append (db : DB.t) (now : Z) (a : Author.t) (p : Post.t) :
  Post.author p = a ->
  Post.created_at p = now ->
  posts_today (DB.with_posts (DB.posts db ++ [p])%list db) now a
  = posts_today db now a + 1.
Proof.
  intros Hauthor Hat. unfold posts_today, Orm.count. simpl.
  rewrite filter_app, length_app; simpl. rewrite Hauthor, Hat, Nat.eqb_refl; simpl.
  pose proof (today_start_bounds now) as [Hlo _].
  assert (Hle : (today_start now <=? now) = true)
    by (apply Z.leb_le; unfold MOSCOW_UTC_OFFSET in Hlo; lia).
  rewrite Hle. simpl. lia.
Qed.

(** X11: The dashboard counts articles: after an author saves an article,
    whatever the number of posts already made, the store holds one more
    post, of type ARTICLE, the dashboard's count of today's posts is one
    higher, and the remaining limit it shows is one lower (down to 0). *)
Theorem article_counts_on_dashboard (db : DB.t) (now : Z) (u : User.t) (a : Author.t)
  (form : PostForm) :
  author_of db u = Orm.Ok a ->
  exists post db',
    ArticleCreate_form_valid db now u form = Orm.Ok (post, db')
    /\ Post.post_type post = ARTICLE
    /\ Post.author post = a
    /\ DB.posts db' = (DB.posts db ++ [post])%list
    /\ author_of db' u = Orm.Ok a
    /\ posts_today db' now a = posts_today db now a + 1
    /\ Z.max 0 (3 - posts_today db' now a)
       = Z.max 0 (Z.max 0 (3 - posts_today db now a) - 1).
Proof.
  intros Ha. unfold ArticleCreate_form_valid.
  rewrite (author_found_again db u a Ha).
  eexists _, _. split; [reflexivity|]. cbn [Post.post_type Post.author].
  split; [reflexivity|]. split; [reflexivity|]. split; [reflexivity|]. split; [exact Ha|].
  set (post := Post.mk _ _ _ ARTICLE a now _).
  pose proof (posts_today_after_append db now a post eq_refl eq_refl) as H.
  split; [exact H|]. rewrite H. lia.
Qed.

Lemma article_counts_on_dashboard_witness :
  exists post db',
    ArticleCreate_form_valid Scenario.db_three_news (Scenario.T0 + 60) Scenario.alice
      Scenario.draft = Orm.Ok (post, db')
    /\ Post.post_type post = ARTICLE
    /\ posts_today db' (Scenario.T0 + 60) Scenario.alice_author
       = posts_today Scenario.db_three_news (Scenario.T0 + 60) Scenario.alice_author + 1.
Proof.
  destruct (article_counts_on_dashboard Scenario.db_three_news (Scenario.T0 + 60)
              Scenario.alice Scenario.alice_author Scenario.draft eq_refl)
    as (post & db' & H1 & H2 & _ & _ & _ & H3 & _).
  exists post, db'. auto.
Defined.

End DashboardFacts.

(** ** Saving a news post *)

Module CreationFacts.
Import Views Pages DashboardFacts.

(** X12: The author profile is created on first use and only then: with at
    most one profile stored for the user, [get_or_create] never raises,
    returns a profile of that user, creates one exactly when none was
    stored, leaves the store alone otherwise, and a second call returns
    the same profile without creating anything. *)
Theorem author_profile_created_once (db : DB.t) (u : User.t) :
  (List.length (profiles_of db u) <= 1)%nat ->
  exists a created db1,
    Author_get_or_create db u = Orm.Ok (a, created, db1)
    /\ Author.user a = User.id u
    /\ (created = true <-> profiles_of db u = [])
    /\ (created = false -> db1 = db)
    /\ profiles_of db1 u = [a]
    /\ Author_get_or_create db1 u = Orm.Ok (a, false, db1).
Proof.
  intros Hle. unfold profiles_of in *. unfold Author_get_or_create, author_of, Orm.get.
  destruct (filter _ (DB.authors db)) as [|a [|b l]] eqn:Hf; simpl in Hle; [| |lia].
  - eexists _, true, _. split; [reflexivity|]. split; [reflexivity|].
    split; [tauto|]. split; [discriminate|].
    simpl. rewrite filter_app, Hf. simpl. rewrite Nat.eqb_refl. simpl.
    split; reflexivity.
  - exists a, false, db. split; [reflexivity|].
    assert (Hin : In a (filter (fun a0 => Nat.eqb (Author.user a0) (User.id u))
                               (DB.authors db))) by (rewrite Hf; now left).
    apply filter_In in Hin. destruct Hin as [_ Hu]. apply Nat.eqb_eq in Hu.
    split; [exact Hu|]. split; [split; intros; discriminate|].
    split; [reflexivity|]. rewrite Hf. split; reflexivity.
Qed.

Lemma author_profile_created_once_witness :
  (List.length (profiles_of Scenario.db0 Scenario.bob) <= 1)%nat
  /\ exists a db1,
       Author_get_or_create Scenario.db0 Scenario.bob = Orm.Ok (a, true, db1)
       /\ Author.user a = 2%nat
       /\ Author_get_or_create db1 Scenario.bob = Orm.Ok (a, false, db1).
Proof.
  assert (Hle : (List.length (profiles_of Scenario.db0 Scenario.bob) <= 1)%nat)
    by (vm_compute; lia).
  split; [exact Hle|].
  destruct (author_profile_created_once Scenario.db0 Scenario.bob Hle)
    as (a & created & db1 & Hg & Hu & Hc & _ & _ & Hagain).
  assert (created = true) by (apply Hc; reflexivity). subst created.
  exists a, db1. auto.
Defined.

(** X13: A saved news post gets a key above every stored key, so keys stay
    unique; it is appended as NEWS with the form's title, content and
    categories, the requester's profile and the time of the request; the
    answer redirects to it; and nothing else in the store changes apart
    from a profile created on the way. *)
Theorem news_saved_under_fresh_key (db : DB.t) (now : Z) (u : User.t) (form : PostForm)
  (a : Author.t) (created : bool) (db1 : DB.t) :
  Author_get_or_create db u = Orm.Ok (a, created, db1) ->
  let o := NewsCreate_form_valid db now u form in
  exists pk,
    let post := Post.mk pk (form_title form) (form_content form) NEWS a now
                        (form_categories form) in
    DB.posts (store o) = (DB.posts db ++ [post])%list
    /\ response o = Redirect "news_detail" (Some pk)
    /\ flashes o = [NewsCreated]
    /\ (forall p, In p (DB.posts db) -> (Post.id p < pk)%nat)
    /\ (NoDup (map Post.id (DB.posts db)) -> NoDup (map Post.id (DB.posts (store o))))
    /\ DB.users (store o) = DB.users db
    /\ DB.categories (store o) = DB.categories db
    /\ DB.subscriptions (store o) = DB.subscriptions db
    /\ DB.tokens (store o) = DB.tokens db
    /\ DB.authors (store o) = DB.authors db1.
Proof.
  intros Ha o. unfold o, NewsCreate_form_valid. rewrite Ha.
  assert (Hsame : DB.posts db1 = DB.posts db /\ DB.users db1 = DB.users db
                  /\ DB.categories db1 = DB.categories db
                  /\ DB.subscriptions db1 = DB.subscriptions db
                  /\ DB.tokens db1 = DB.tokens db).
  { unfold Author_get_or_create in Ha.
    destruct (author_of db u) as [a0|[]]; inversion Ha; subst; simpl; auto. }
  destruct Hsame as (Hp & Hu & Hc & Hs & Ht).
  exists (Orm.next_id Post.id (DB.posts db1)). cbn [store response flashes].
  simpl. rewrite Hp, Hu, Hc, Hs, Ht.
  split; [reflexivity|]. split; [reflexivity|]. split; [reflexivity|].
  split; [intros p Hin; now apply next_id_above|].
  split; [|auto 10].
  intros Hnd. rewrite map_app. simpl.
  apply NoDup_app; [assumption|repeat constructor; auto|].
  intros k Hk [<-|[]]. apply in_map_iff in Hk. destruct Hk as (p & Hid & Hin).
  pose proof (next_id_above Post.id (DB.posts db) p Hin). lia.
Qed.

Lemma news_saved_under_fresh_key_witness :
  let o := NewsCreate_form_valid Scenario.db_three_news Scenario.T0 Scenario.alice
             Scenario.draft in
  exists pk, response o = Redirect "news_detail" (Some pk)
             /\ (forall p, In p (DB.posts Scenario.db_three_news) -> (Post.id p < pk)%nat).
Proof.
  intros o.
  destruct (news_saved_under_fresh_key Scenario.db_three_news Scenario.T0 Scenario.alice
              Scenario.draft Scenario.alice_author false Scenario.db_three_news eq_refl)
    as (pk & _ & Hr & _ & Hlt & _).
  exists pk. split; assumption.
Defined.

End CreationFacts.

(** ** Activation letters and activation *)

Module ActivationExtras.
Import Views Pages ActivationFacts.

Section ResendFacts.

Variable is_expired : Z -> ActivationToken.t -> bool.
Variable create_token : DB.t -> Z -> User.t -> ActivationToken.t * DB.t.

(** X14: One request sends at most one letter, always to the requester.  An
    account whose token is flagged gets none and the store is left alone,
    whether or not the token has expired (the flag is tested first); a
    pending token that has not expired is sent again as it is, store
    untouched; an expired pending token is deleted before the new one is
    made, and the letter carries the new one. *)
Theorem resend_letter (db : DB.t) (now : Z) (u : User.t) (a : ActivationToken.t) :
  Orm.get (fun r => Nat.eqb (ActivationToken.user r) (User.id u)) (DB.tokens db)
  = Orm.Ok a ->
  let o := resend_activation_email is_expired create_token db now (Authenticated u) in
  (List.length (welcome_sent o) <= 1)%nat
  /\ (forall m, In m (welcome_sent o) -> welcome_user m = User.id u)
  /\ (ActivationToken.activated a = true ->
      o = mkResend (Redirect "profile" None) [AccountAlreadyActivated] db [])
  /\ (ActivationToken.activated a = false -> is_expired now a = false ->
      o = mkResend (Redirect "profile" None) [LetterSent] db
            [mkWelcome (User.id u) (activation_url (ActivationToken.token a))])
  /\ (ActivationToken.activated a = false -> is_expired now a = true ->
      let db1 := ActivationToken_delete a db in
      (forall r, In r (DB.tokens db1) -> ActivationToken.id r <> ActivationToken.id a)
      /\ resend_store o = snd (create_token db1 now u)
      /\ welcome_sent o
         = [mkWelcome (User.id u)
              (activation_url (ActivationToken.token (fst (create_token db1 now u))))]).
Proof.
  intros Hget o. unfold o, resend_activation_email. rewrite Hget.
  destruct (ActivationToken.activated a) eqn:Hact.
  - simpl. split; [lia|]. split; [intros m []|].
    split; [reflexivity|]. split; discriminate.
  - destruct (is_expired now a) eqn:Hexp.
    + destruct (create_token (ActivationToken_delete a db) now u) as [n db'] eqn:Hc.
      simpl. split; [lia|]. split; [intros m [<-|[]]; reflexivity|].
      split; [discriminate|]. split; [discriminate|]. intros _ _.
      split; [|split; reflexivity].
      intros r Hin. apply filter_In in Hin. destruct Hin as [_ Hne].
      now apply negb_true_iff, Nat.eqb_neq in Hne.
    + simpl. split; [lia|]. split; [intros m [<-|[]]; reflexivity|].
      split; [discriminate|]. split; [reflexivity|discriminate].
Qed.

(** Without any token for the requester a new one is made and sent;
    with several the lookup fails and nothing is sent or changed. *)
Lemma resend_without_token (db : DB.t) (now : Z) (u : User.t) :
  Orm.get (fun r => Nat.eqb (ActivationToken.user r) (User.id u)) (DB.tokens db)
  = Orm.Raise Orm.DoesNotExist ->
  resend_activation_email is_expired create_token db now (Authenticated u)
  = mkResend (Redirect "profile" None) [LetterSent] (snd (create_token db now u))
      [mkWelcome (User.id u)
         (activation_url (ActivationToken.token (fst (create_token db now u))))].
Proof.
  intros H. unfold resend_activation_email. rewrite H.
  now destruct (create_token db now u).
Qed.

End ResendFacts.

Lemma resend_letter_witness :
  let create (d : DB.t) (now : Z) (u : User.t) :=
    (ActivationToken.mk 9 (User.id u) "fresh" now false, d) in
  resend_activation_email Models.is_expired create Scenario.db_activated
    (Scenario.T0 + 2 * DAY) (Authenticated Scenario.dave)
  = mkResend (Redirect "profile" None) [AccountAlreadyActivated] Scenario.db_activated [].
Proof.
  intros create.
  destruct (resend_letter Models.is_expired create Scenario.db_activated
              (Scenario.T0 + 2 * DAY) Scenario.dave
              (ActivationToken.set_activated true Scenario.dave_token) eq_refl)
    as (_ & _ & H & _).
  exact (H eq_refl).
Defined.

(** X15: The admin column and the activation page agree on pending tokens:
    for a token the lookup finds, the page activates the account (both
    saves committed) exactly when the admin lists the token as pending;
    for a token listed as expired the page answers [expired]. *)
Theorem pending_iff_activation_succeeds (db : DB.t) (now : Z) (token : string)
  (a : ActivationToken.t) (u : User.t) :
  lookup db token = Orm.Ok (a, u) ->
  let page := ActivationView_get [] db now token in
  (AdminColumns.status now a = AdminColumns.Pending
   <-> status page = Orm.Ok (success (User.username u)))
  /\ (AdminColumns.status now a = AdminColumns.Expired -> status page = Orm.Ok expired).
Proof.
  intros Hl page. unfold page, ActivationView_get, AdminColumns.status. rewrite Hl.
  destruct (ActivationToken.activated a), (Models.is_expired now a); simpl;
    (split; [split|]); intros; try discriminate; reflexivity.
Qed.

Lemma pending_iff_activation_succeeds_witness :
  AdminColumns.status (Scenario.T0 + 3600) Scenario.dave_token = AdminColumns.Pending
  /\ status (ActivationView_get [] Scenario.db_pending (Scenario.T0 + 3600) "tok-dave")
     = Orm.Ok (success "dave").
Proof.
  split; [reflexivity|].
  apply (pending_iff_activation_succeeds Scenario.db_pending (Scenario.T0 + 3600)
           "tok-dave" Scenario.dave_token Scenario.dave eq_refl).
  reflexivity.
Defined.

End ActivationExtras.

(** ** What activation does to the store *)

Module ActivationStoreFacts.
Import Views ActivationFacts.

Section Rows.

Context {A : Type}.
Variable key : A -> nat.
Variable flag : A -> bool.

Lemma flag_kept_by_update (a' : A) (pk : nat) (rows : list A) :
  flag a' = true ->
  option_map flag (find (fun r => Nat.eqb (key r) pk) rows) = Some true ->
  option_map flag
    (find (fun r => Nat.eqb (key r) pk)
          (map (fun r => if Nat.eqb (key r) (key a') then a' else r) rows))
  = Some true.
Proof.
  intros Ha'. induction rows as [|x l IH]; simpl; [discriminate|].
  destruct (Nat.eqb (key x) (key a')) eqn:E.
  - apply Nat.eqb_eq in E.
    replace (Nat.eqb (key a') pk) with (Nat.eqb (key x) pk) by (now rewrite E).
    destruct (Nat.eqb (key x) pk); simpl; [now rewrite Ha'|exact IH].
  - destruct (Nat.eqb (key x) pk); simpl; [auto|exact IH].
Qed.

Lemma keys_kept_by_update (a' : A) (rows : list A) :
  map key (map (fun r => if Nat.eqb (key r) (key a') then a' else r) rows)
  = map key rows.
Proof.
  rewrite map_map. apply map_ext. intros r.
  destruct (Nat.eqb (key r) (key a')) eqn:E; [|reflexivity].
  apply Nat.eqb_eq in E. congruence.
Qed.

Lemma unique_key (rows : list A) (x y : A) :
  NoDup (map key rows) -> In x rows -> In y rows -> key x = key y -> x = y.
Proof.
  induction rows as [|z l IH]; simpl; [contradiction|].
  intros Hnd Hx Hy Hk. inversion Hnd as [|k ks Hnotin Hnd']; subst.
  destruct Hx as [->|Hx], Hy as [->|Hy]; auto.
  - exfalso. apply Hnotin. rewrite Hk. now apply in_map.
  - exfalso. apply Hnotin. rewrite <- Hk. now apply in_map.
Qed.

End Rows.

Lemma filter_of_map {A B : Type} (f : B -> bool) (g : A -> B) (l : list A) :
  filter f (map g l) = map g (filter (fun x => f (g x)) l).
Proof.
  induction l as [|x l IH]; simpl; [reflexivity|].
  destruct (f (g x)); simpl; now rewrite IH.
Qed.

(** X16: Activation only ever sets flags: whatever the token string and
    whichever saves are committed, the request leaves posts, authors,
    categories and subscriptions alone, adds or removes no token and no
    user, and a token that was flagged or a user who was active before is
    so afterwards. *)
Theorem activation_only_sets_flags (writes : list bool) (db : DB.t) (now : Z)
  (token : string) :
  let db' := store_after (ActivationView_get writes db now token) in
  DB.posts db' = DB.posts db
  /\ DB.authors db' = DB.authors db
  /\ DB.categories db' = DB.categories db
  /\ DB.subscriptions db' = DB.subscriptions db
  /\ map ActivationToken.id (DB.tokens db') = map ActivationToken.id (DB.tokens db)
  /\ map User.id (DB.users db') = map User.id (DB.users db)
  /\ (forall pk, token_flag db pk = Some true -> token_flag db' pk = Some true)
  /\ (forall pk, user_flag db pk = Some true -> user_flag db' pk = Some true).
Proof.
  unfold ActivationView_get.
  destruct (lookup db token) as [[a u]|[]]; simpl; auto 10.
  destruct (Models.is_expired now a); simpl; auto 10.
  destruct (ActivationToken.activated a); simpl; auto 10.
  unfold ActivationToken_save, User_save.
  pose proof (keys_kept_by_update ActivationToken.id
                (ActivationToken.set_activated true a) (DB.tokens db)) as Hk.
  pose proof (keys_kept_by_update User.id (User.set_is_active true u) (DB.users db))
    as Hu.
  assert (Ht : forall pk, token_flag db pk = Some true ->
                 option_map ActivationToken.activated
                   (find (fun r => Nat.eqb (ActivationToken.id r) pk)
                      (map (fun r => if Nat.eqb (ActivationToken.id r) (ActivationToken.id a)
                                     then ActivationToken.set_activated true a else r)
                           (DB.tokens db))) = Some true).
  { intros pk H.
    exact (flag_kept_by_update ActivationToken.id ActivationToken.activated
             (ActivationToken.set_activated true a) pk (DB.tokens db) eq_refl H). }
  assert (Hv : forall pk, user_flag db pk = Some true ->
                 option_map User.is_active
                   (find (fun r => Nat.eqb (User.id r) pk)
                      (map (fun r => if Nat.eqb (User.id r) (User.id u)
                                     then User.set_is_active true u else r)
                           (DB.users db))) = Some true).
  { intros pk H.
    exact (flag_kept_by_update User.id User.is_active
             (User.set_is_active true u) pk (DB.users db) eq_refl H). }
  destruct (nth 0 writes true); simpl; auto 10.
  destruct (nth 1 writes true); simpl; unfold token_flag, user_flag; simpl; auto 10.
Qed.

Lemma activation_only_sets_flags_witness :
  user_flag Scenario.db_pending 1 = Some true
  /\ user_flag (store_after (ActivationView_get [] Scenario.db_pending
                               (Scenario.T0 + 3600) "tok-dave")) 1 = Some true.
Proof.
  split; [reflexivity|].
  destruct (activation_only_sets_flags [] Scenario.db_pending (Scenario.T0 + 3600)
              "tok-dave") as (_ & _ & _ & _ & _ & _ & _ & H).
  apply H. reflexivity.
Defined.

Lemma joined_after_updates (db : DB.t) (a : ActivationToken.t) (u : User.t)
  (F : ActivationToken.t * User.t -> ActivationToken.t * User.t) :
  F = (fun au =>
         (if Nat.eqb (ActivationToken.id (fst au)) (ActivationToken.id a)
          then ActivationToken.set_activated true (fst au) else fst au,
          if Nat.eqb (User.id (snd au)) (User.id u)
          then User.set_is_active true (snd au) else snd au)) ->
  tokens_with_user
    (DB.with_users (map (fun y => snd (F (a, y))) (DB.users db))
       (DB.with_tokens (map (fun x => fst (F (x, u))) (DB.tokens db)) db))
  = map F (tokens_with_user db).
Proof.
  intros ->. unfold tokens_with_user. simpl.
  induction (DB.tokens db) as [|x l IH]; simpl; [reflexivity|].
  rewrite IH, map_app. f_equal.
  rewrite filter_of_map, !map_map.
  assert (Hu : ActivationToken.user
                 (if Nat.eqb (ActivationToken.id x) (ActivationToken.id a)
                  then ActivationToken.set_activated true x else x)
               = ActivationToken.user x) by (destruct (Nat.eqb _ _); reflexivity).
  rewrite Hu.
  rewrite (filter_ext
             (fun y => Nat.eqb (User.id (if Nat.eqb (User.id y) (User.id u)
                                         then User.set_is_active true y else y))
                               (ActivationToken.user x))
             (fun y => Nat.eqb (User.id y) (ActivationToken.user x))).
  - reflexivity.
  - intros y. now destruct (Nat.eqb (User.id y) (User.id u)).
Qed.

(** X17: A second visit of the activation link changes nothing: after a
    successful activation (keys of tokens and of users unique) the same
    link is answered with [already_activated] while the token is within
    its validity window and with [expired] afterwards, and the store stays
    as the first visit left it. *)
Theorem second_activation_changes_nothing (db : DB.t) (now now' : Z) (token : string)
  (a : ActivationToken.t) (u : User.t) :
  NoDup (map ActivationToken.id (DB.tokens db)) ->
  NoDup (map User.id (DB.users db)) ->
  lookup db token = Orm.Ok (a, u) ->
  ActivationToken.activated a = false ->
  Models.is_expired now a = false ->
  let first := ActivationView_get [] db now token in
  let second := ActivationView_get [] (store_after first) now' token in
  status first = Orm.Ok (success (User.username u))
  /\ status second
     = Orm.Ok (if Models.is_expired now' a then expired else already_activated)
  /\ store_after second = store_after first.
Proof.
  intros Hnt Hnu Hl Hact Hexp first second.
  pose proof (lookup_Ok db token a u Hl) as (Hina & Hinu & Hid & Htok).
  set (F := fun au : ActivationToken.t * User.t =>
              (if Nat.eqb (ActivationToken.id (fst au)) (ActivationToken.id a)
               then ActivationToken.set_activated true (fst au) else fst au,
               if Nat.eqb (User.id (snd au)) (User.id u)
               then User.set_is_active true (snd au) else snd au)).
  set (db2 := DB.with_users (map (fun y => snd (F (a, y))) (DB.users db))
                (DB.with_tokens (map (fun x => fst (F (x, u))) (DB.tokens db)) db)).
  assert (Hfirst : first = mkActivation (Orm.Ok (success (User.username u))) db2).
  { unfold first, ActivationView_get. rewrite Hl, Hexp, Hact. simpl.
    unfold ActivationToken_save, User_save, db2, F. simpl. f_equal.
    unfold DB.with_users, DB.with_tokens. simpl. f_equal.
    - apply map_ext_in. intros y Hy. simpl.
      destruct (Nat.eqb (User.id y) (User.id u)) eqn:E; [|reflexivity].
      apply Nat.eqb_eq in E. now rewrite (unique_key User.id _ y u Hnu Hy Hinu E).
    - apply map_ext_in. intros x Hx. simpl.
      destruct (Nat.eqb (ActivationToken.id x) (ActivationToken.id a)) eqn:E;
        [|reflexivity].
      apply Nat.eqb_eq in E.
      now rewrite (unique_key ActivationToken.id _ x a Hnt Hx Hina E). }
  assert (Hl2 : lookup db2 token
                = Orm.Ok (ActivationToken.set_activated true a, User.set_is_active true u)).
  { unfold lookup, db2. rewrite (joined_after_updates db a u F eq_refl).
    apply get_of_singleton. rewrite filter_of_map.
    rewrite (filter_ext _ (fun au => String.eqb (ActivationToken.token (fst au)) token)).
    - unfold lookup in Hl. rewrite (get_Ok_filter _ _ _ Hl). unfold F. simpl.
      now rewrite !Nat.eqb_refl.
    - intros [x y]. unfold F. simpl. now destruct (Nat.eqb _ _). }
  split; [now rewrite Hfirst|].
  unfold second. rewrite Hfirst. cbn [store_after].
  unfold ActivationView_get. rewrite Hl2.
  change (Models.is_expired now' (ActivationToken.set_activated true a))
    with (Models.is_expired now' a).
  destruct (Models.is_expired now' a); simpl; split; reflexivity.
Qed.

Lemma second_activation_changes_nothing_witness :
  let first := ActivationView_get [] Scenario.db_pending (Scenario.T0 + 3600) "tok-dave" in
  let second := ActivationView_get [] (store_after first) (Scenario.T0 + 7200) "tok-dave" in
  NoDup (map ActivationToken.id (DB.tokens Scenario.db_pending))
  /\ NoDup (map User.id (DB.users Scenario.db_pending))
  /\ status second = Orm.Ok already_activated
  /\ store_after second = store_after first.
Proof.
  intros first second.
  assert (Hnt : NoDup (map ActivationToken.id (DB.tokens Scenario.db_pending))).
  { simpl. repeat constructor; simpl; intuition discriminate. }
  assert (Hnu : NoDup (map User.id (DB.users Scenario.db_pending))).
  { simpl. repeat constructor; simpl; intuition discriminate. }
  split; [exact Hnt|]. split; [exact Hnu|].
  destruct (second_activation_changes_nothing Scenario.db_pending (Scenario.T0 + 3600)
              (Scenario.T0 + 7200) "tok-dave" Scenario.dave_token Scenario.dave
              Hnt Hnu eq_refl eq_refl eq_refl) as (_ & Hs & Hst).
  split; [exact Hs|exact Hst].
Defined.

End ActivationStoreFacts.

(** ** Accounting of the admin action; admin filters and columns *)

Module AdminExtras.
Import Admin AdminFacts AdminColumns.

Section Accounting.

Variable send : Post.t -> Dispatch.

Lemma partition_lengths (queryset : list Post.t) :
  (List.length (succeeded send queryset) + List.length (failed send queryset)
   + List.length (skipped queryset) = List.length queryset)%nat.
Proof.
  unfold succeeded, failed, skipped.
  induction queryset as [|p l IH]; simpl; [reflexivity|].
  destruct (eligible p); simpl; [|lia].
  destruct (raised (send p)); simpl; lia.
Qed.

Lemma post_messages_length (queryset : list Post.t) :
  List.length (flat_map (post_messages send) queryset)
  = (List.length (skipped queryset) + List.length (failed send queryset))%nat.
Proof.
  unfold failed, skipped.
  induction queryset as [|p l IH]; simpl; [reflexivity|].
  rewrite length_app, IH. unfold post_messages, eligible.
  destruct (Post.post_type p); simpl; [|lia].
  destruct (Post.categories p); simpl; [lia|].
  destruct (raised (send p)); simpl; lia.
Qed.

Lemma post_log_length (queryset : list Post.t) :
  List.length (flat_map (post_log send) queryset)
  = List.length (filter eligible queryset).
Proof.
  induction queryset as [|p l IH]; simpl; [reflexivity|].
  rewrite length_app, IH. unfold post_log, eligible.
  destruct (Post.post_type p); simpl; [|lia].
  destruct (Post.categories p); simpl; [lia|].
  destruct (raised (send p)); simpl; lia.
Qed.

(** X18: Every selected post is accounted for exactly once: it is either
    counted as success, counted as error, or skipped with a warning.  The
    actor sees one message per skipped post and per failed post, plus the
    summary, which comes last and only when a dispatch succeeded; the log
    holds one record per dispatched post. *)
Theorem every_post_accounted_for (queryset : list Post.t) :
  let st := send_notifications_action send queryset in
  (success_count st + error_count st + List.length (skipped queryset)
   = List.length queryset)%nat
  /\ List.length (dispatched st) = (success_count st + error_count st)%nat
  /\ List.length (log st) = List.length (dispatched st)
  /\ List.length (messages st)
     = (List.length (skipped queryset) + error_count st
        + if (0 <? success_count st)%nat then 1 else 0)%nat
  /\ ((0 < success_count st)%nat ->
      exists before, messages st = (before ++ [NotificationsSent (success_count st)])%list).
Proof.
  intros st. unfold st. rewrite action_closed_form. cbn [success_count error_count
    dispatched log messages].
  pose proof (partition_lengths queryset) as Hp.
  assert (He : List.length (filter eligible queryset)
               = (List.length (succeeded send queryset)
                  + List.length (failed send queryset))%nat).
  { unfold succeeded, failed.
    induction (filter eligible queryset) as [|p l IH]; simpl; [reflexivity|].
    destruct (raised (send p)); simpl; lia. }
  split; [exact Hp|]. split; [exact He|].
  split; [now rewrite post_log_length|]. split.
  - rewrite length_app, post_messages_length.
    destruct (0 <? _)%nat; simpl; lia.
  - intros Hpos. apply Nat.ltb_lt in Hpos. rewrite Hpos. eauto.
Qed.

(** X19: Running the action on two selections one after the other dispatches
    the same posts, sends the same mail, writes the same log and reaches
    the same counts as running it once on both. *)
Theorem action_of_two_batches (first second : list Post.t) :
  let a := send_notifications_action send first in
  let b := send_notifications_action send second in
  let c := send_notifications_action send (first ++ second) in
  dispatched c = (dispatched a ++ dispatched b)%list
  /\ mail c = (mail a ++ mail b)%list
  /\ log c = (log a ++ log b)%list
  /\ success_count c = (success_count a + success_count b)%nat
  /\ error_count c = (error_count a + error_count b)%nat.
Proof.
  intros a b c. unfold a, b, c. rewrite !action_closed_form.
  cbn [dispatched mail log success_count error_count].
  unfold succeeded, failed.
  rewrite !filter_app, !flat_map_app, !length_app. auto.
Qed.

End Accounting.

Lemma every_post_accounted_for_witness :
  let st := send_notifications_action Scenario.flaky_send
              [Scenario.essay; Scenario.budget; Scenario.boom 12] in
  exists before, messages st = (before ++ [NotificationsSent (success_count st)])%list.
Proof.
  intros st.
  destruct (every_post_accounted_for Scenario.flaky_send
              [Scenario.essay; Scenario.budget; Scenario.boom 12])
    as (_ & _ & _ & _ & H).
  apply H. vm_compute. lia.
Defined.

(** X20: The two list filters of the post admin commute and only narrow the
    list: a post is kept by the category filter exactly when it carries
    the category, by the author filter exactly when it is the author's;
    a filter without value keeps the list as it is. *)
Theorem admin_filters (category author : option nat) (queryset : list Post.t) :
  CategoryFilter_queryset category (AuthorFilter_queryset author queryset)
  = AuthorFilter_queryset author (CategoryFilter_queryset category queryset)
  /\ (forall v p, In p (CategoryFilter_queryset (Some v) queryset)
                  <-> In p queryset /\ In v (Post.categories p))
  /\ (forall v p, In p (AuthorFilter_queryset (Some v) queryset)
                  <-> In p queryset /\ Author.id (Post.author p) = v)
  /\ CategoryFilter_queryset None queryset = queryset
  /\ AuthorFilter_queryset None queryset = queryset.
Proof.
  split; [|split; [|split; [|split; reflexivity]]].
  - destruct category as [c|], author as [a|]; try reflexivity. simpl.
    induction queryset as [|p l IH]; simpl; [reflexivity|].
    rewrite filter_app, <- IH.
    destruct (Nat.eqb (Author.id (Post.author p)) a) eqn:E; simpl.
    + f_equal. induction (filter (Nat.eqb c) (Post.categories p)) as [|x xs IHx];
        simpl; [reflexivity|]. rewrite E. f_equal. exact IHx.
    + replace (filter _ (map _ _)) with (@nil Post.t); [reflexivity|].
      induction (filter (Nat.eqb c) (Post.categories p)) as [|x xs IHx];
        simpl; [reflexivity|]. rewrite E. exact IHx.
  - intros v p. simpl. rewrite in_flat_map. split.
    + intros (q & Hq & Hin). apply in_map_iff in Hin. destruct Hin as (x & <- & Hx).
      apply filter_In in Hx. destruct Hx as [Hx Hv]. apply Nat.eqb_eq in Hv. subst x.
      now split.
    + intros [Hin Hv]. exists p. split; [assumption|]. apply in_map_iff.
      exists v. split; [reflexivity|]. apply filter_In. split; [assumption|].
      apply Nat.eqb_refl.
  - intros v p. simpl. rewrite filter_In, Nat.eqb_eq. tauto.
Qed.

Lemma admin_filters_witness :
  In Scenario.budget
     (CategoryFilter_queryset (Some 2%nat) [Scenario.essay; Scenario.budget]).
Proof.
  destruct (admin_filters (Some 2%nat) None [Scenario.essay; Scenario.budget])
    as (_ & H & _).
  apply H. simpl. auto.
Defined.

Lemma latest_created_at_spec (posts : list Post.t) :
  match latest_created_at posts with
  | None => posts = []
  | Some t => (exists p, In p posts /\ Post.created_at p = t)
              /\ forall p, In p posts -> Post.created_at p <= t
  end.
Proof.
  induction posts as [|p l IH]; simpl; [reflexivity|].
  destruct (latest_created_at l) as [t|].
  - destruct IH as [(q & Hq & Ht) Hmax]. split.
    + destruct (Z.max_spec (Post.created_at p) t) as [[_ ->]|[_ ->]].
      * exists q. auto.
      * exists p. auto.
    + intros x [<-|Hx]; [lia|]. specialize (Hmax x Hx). lia.
  - subst l. split.
    + exists p. auto.
    + intros x [<-|[]]. lia.
Qed.

(** X21: The "last post" column of the author admin shows the latest creation
    time among the author's posts, and the "no posts" text exactly when
    the post count of the same row is 0. *)
Theorem last_post_date_is_latest (db : DB.t) (a : Author.t) :
  (last_post_date db a = None <-> posts_count db a = 0%nat)
  /\ forall t, last_post_date db a = Some t ->
       (exists p, In p (DB.posts db)
                  /\ Author.id (Post.author p) = Author.id a
                  /\ Post.created_at p = t)
       /\ forall p, In p (DB.posts db) -> Author.id (Post.author p) = Author.id a ->
                    Post.created_at p <= t.
Proof.
  unfold last_post_date, posts_count.
  pose proof (latest_created_at_spec (post_set db a)) as H.
  destruct (latest_created_at (post_set db a)) as [t|].
  - destruct H as [(q & Hq & Ht) Hmax]. split.
    + split; [discriminate|]. intros H0. apply length_zero_iff_nil in H0.
      rewrite H0 in Hq. contradiction.
    + intros t' Heq. inversion Heq; subst t'. split.
      * exists q. apply filter_In in Hq. destruct Hq as [Hin Hid].
        apply Nat.eqb_eq in Hid. auto.
      * intros p Hin Hid. apply Hmax. apply filter_In. split; [assumption|].
        now apply Nat.eqb_eq.
  - rewrite H. split; [split; reflexivity|]. discriminate.
Qed.

Lemma last_post_date_is_latest_witness :
  last_post_date Scenario.db_three_news Scenario.alice_author = Some (Scenario.T0 + 20)
  /\ forall p, In p (DB.posts Scenario.db_three_news) ->
               Author.id (Post.author p) = Author.id Scenario.alice_author ->
               Post.created_at p <= Scenario.T0 + 20.
Proof.
  split; [reflexivity|].
  destruct (last_post_date_is_latest Scenario.db_three_news Scenario.alice_author)
    as [_ H].
  exact (proj2 (H (Scenario.T0 + 20) eq_refl)).
Defined.

End AdminExtras.
